(** * gofinances-web: the Dashboard page

    A shallow embedding of [src/pages/Dashboard/index.tsx]: the component
    state kept by the [useState] hooks, the two asynchronous handlers
    ([loadTransactions], [handleDeleteTransaction]) written as programs
    that suspend at their [await], the [useEffect]/[useCallback]
    dependency rule that re-runs the fetch when the page cursor changes,
    the memoised derived values and the balance cards of the render.

    Conventions.
    - A JavaScript string is the list of its UTF-16 code units, so that
      [length] is the [.length] of the source and [substr] cuts where the
      source cuts.
    - The integer-valued JavaScript numbers held by the component (page
      cursor, total count, page size) are [Z].
    - [formatValue], [formatDate] and the [Number] conversion live outside
      this file of the repository; they are parameters of the section. *)

From stdpp Require Import gmap strings list pretty.

Open Scope Z_scope.

(** ** JavaScript strings *)

Abbreviation jsstring := (list N).

Definition lit (s : string) : jsstring :=
  Ascii.N_of_ascii <$> String.list_ascii_of_string s.

(** [s.substr(start, len)] for non-negative arguments. *)
Definition substr (start len : nat) (s : jsstring) : jsstring :=
  take len (drop start s).

(** [s.concat(t)]. *)
Definition concat (s t : jsstring) : jsstring := s ++ t.

(** [`${n}`] for an integer-valued number: its decimal digits, with a
    minus sign in front of a negative one.  This is what the conversion
    of a number to a string prints for the safe integers, those of
    magnitude at most 2^53 - 1; larger numbers are printed from their
    shortest round-trip digits (and in exponent notation from 10^21 on),
    which this function does not describe.  Every statement about the
    text of a request takes its page numbers among the safe integers. *)
Definition show (n : Z) : jsstring := lit (pretty n).

(** [Number.MAX_SAFE_INTEGER]. *)
Definition maxSafeInteger : Z := 9007199254740991.

Definition safeInteger (n : Z) : Prop :=
  - maxSafeInteger ≤ n ≤ maxSafeInteger.

(** The title expression of [transactionsList] (lines 99-102). *)
Definition displayTitle (t : jsstring) : jsstring :=
  if bool_decide (length t ≤ 15)%nat
  then t
  else concat (substr 0 15 t) (lit "...").

Section Dashboard.

(** The collaborators that are imported from other files. *)
Context {num Date : Type}.
Variable Number_ : option jsstring → num.
Variable formatValue : num → jsstring.
Variable formatDate : Date → jsstring.

(** ** Data model (lines 37-52) *)

Inductive TransactionType := Income | Outcome.

Record Category := { category_title : jsstring }.

Record Transaction := {
  id : jsstring;
  title : jsstring;
  value : jsstring;
  formattedValue : jsstring;
  formattedDate : jsstring;
  type : TransactionType;
  category : Category;
  created_at : Date
}.

(** A field of [balance] is absent ([None]) in the initial [{} as Balance]. *)
Record Balance := {
  income : option jsstring;
  outcome : option jsstring;
  total : option jsstring
}.

(** ** Derived values (lines 96-118) *)

Definition decorate (transaction : Transaction) : Transaction :=
  {| id := id transaction;
     title := displayTitle (title transaction);
     value := value transaction;
     formattedValue := formatValue (Number_ (Some (value transaction)));
     formattedDate := formatDate (created_at transaction);
     type := type transaction;
     category := category transaction;
     created_at := created_at transaction |}.

Definition transactionsList (transactions : list Transaction) : list Transaction :=
  decorate <$> transactions.

Definition incomeBalance (balance : Balance) : jsstring :=
  formatValue (Number_ (income balance)).

Definition outcomeBalance (balance : Balance) : jsstring :=
  formatValue (Number_ (outcome balance)).

Definition totalBalance (balance : Balance) : jsstring :=
  formatValue (Number_ (total balance)).

(** ** Component state (lines 55-64)

    One field per [useState] hook that has a setter; [limitPerPage] is
    read from a hook whose setter is never taken, so it is a constant. *)

Record State := {
  transactions : list Transaction;
  balance : Balance;
  currentPage : Z;
  modalIsOpen : bool;
  editingTransaction : option Transaction;
  totalTransactions : Z;
  loadingCards : bool
}.

Definition limitPerPage : Z := 5.

Definition initialState : State :=
  {| transactions := [];
     balance := {| income := None; outcome := None; total := None |};
     currentPage := 1;
     modalIsOpen := false;
     editingTransaction := None;
     totalTransactions := 0;
     loadingCards := false |}.

(** ** The remote source, as the component sees it *)

Record ResponseData := {
  data_transactions : list Transaction;
  data_balance : Balance;
  data_totalTransactions : Z
}.

Record Response := { data : ResponseData }.

Inductive Request :=
  | GET (url : jsstring)
  | DELETE (url : jsstring).

(** ** Handlers as suspendable programs

    A handler body is a sequence of state-setter calls and notifications
    that may stop at an [await]; what follows the [await] is the
    continuation stored with the promise.  There is no constructor for
    [try]/[catch]: the source has none. *)

Inductive async : Type :=
  | Return
  | SetTransactions (v : list Transaction) (k : async)
  | SetBalance (v : Balance) (k : async)
  | SetCurrentPage (v : Z) (k : async)
  | SetModalIsOpen (v : bool) (k : async)
  | SetEditingTransaction (v : Transaction) (k : async)
  | SetTotalTransactions (v : Z) (k : async)
  | SetLoadingCards (v : bool) (k : async)
  | ToastSuccess (message : jsstring) (k : async)
  | AwaitGet (url : jsstring) (k : Response → async)
  | AwaitDelete (url : jsstring) (k : async).

(** Lines 66-73. *)
Definition openModal (transaction : Transaction) : async :=
  SetEditingTransaction transaction $
  SetModalIsOpen true $
  Return.

Definition closeModal : async :=
  SetModalIsOpen false $
  Return.

(** Lines 80-89: the part of [loadTransactions] after its [await]. *)
Definition loadTransactions_resume (response : Response) : async :=
  SetTransactions (data_transactions (data response)) $
  SetBalance {| income := income (data_balance (data response));
                outcome := outcome (data_balance (data response));
                total := total (data_balance (data response)) |} $
  SetTotalTransactions (data_totalTransactions (data response)) $
  SetLoadingCards false $
  Return.

Definition transactionsUrl (page limit : Z) : jsstring :=
  lit "/transactions?page=" ++ show page ++ lit "&limit=" ++ show limit.

(** Lines 75-90.  [page] and [limit] are the values of [currentPage] and
    [limitPerPage] closed over when [useCallback] built the function. *)
Definition loadTransactions (page limit : Z) : async :=
  SetLoadingCards true $
  AwaitGet (transactionsUrl page limit) loadTransactions_resume.

(** Line 121. *)
Definition handleChangePage (prevOrNext : Z) : async :=
  SetCurrentPage prevOrNext $
  Return.

(** 'Transação removida com sucesso!' *)
Definition deleteSuccessMessage : jsstring :=
  lit "Transa" ++ [231%N; 227%N] ++ lit "o removida com sucesso!".

(** Lines 127-131: the part of [handleDeleteTransaction] after its
    [await].  [captured] is the [transactions] array closed over by the
    callback. *)
Definition handleDeleteTransaction_resume
    (captured : list Transaction) (id0 : jsstring) : async :=
  ToastSuccess deleteSuccessMessage $
  SetTransactions (filter (λ transaction, id transaction ≠ id0) captured) $
  Return.

(** Lines 124-134. *)
Definition handleDeleteTransaction
    (captured : list Transaction) (id0 : jsstring) : async :=
  AwaitDelete (lit "transactions/" ++ id0)
    (handleDeleteTransaction_resume captured id0).

(** ** The running page

    [effectDeps] is the dependency pair of the [loadTransactions] callback
    seen by the last run of the effect of lines 92-94 ([None] before the
    first render).  The n-th call made to the api client has promise
    number n; [pending] holds the continuations of the promises that are
    not settled yet. *)

Inductive Suspended :=
  | AwaitingGet (k : Response → async)
  | AwaitingDelete (k : async).

Record World := {
  state : State;
  effectDeps : option (Z * Z);
  pending : gmap nat Suspended;
  issued : list Request;
  toasts : list jsstring
}.

Definition withState (f : State → State) (w : World) : World :=
  {| state := f (state w); effectDeps := effectDeps w;
     pending := pending w; issued := issued w; toasts := toasts w |}.

Definition suspend (r : Request) (k : Suspended) (w : World) : World :=
  {| state := state w; effectDeps := effectDeps w;
     pending := <[length (issued w) := k]> (pending w);
     issued := issued w ++ [r]; toasts := toasts w |}.

Definition settle (n : nat) (w : World) : World :=
  {| state := state w; effectDeps := effectDeps w;
     pending := delete n (pending w);
     issued := issued w; toasts := toasts w |}.

Definition notify (message : jsstring) (w : World) : World :=
  {| state := state w; effectDeps := effectDeps w;
     pending := pending w; issued := issued w;
     toasts := toasts w ++ [message] |}.

Definition set_transactions v (s : State) : State :=
  {| transactions := v; balance := balance s; currentPage := currentPage s;
     modalIsOpen := modalIsOpen s; editingTransaction := editingTransaction s;
     totalTransactions := totalTransactions s; loadingCards := loadingCards s |}.

Definition set_balance v (s : State) : State :=
  {| transactions := transactions s; balance := v; currentPage := currentPage s;
     modalIsOpen := modalIsOpen s; editingTransaction := editingTransaction s;
     totalTransactions := totalTransactions s; loadingCards := loadingCards s |}.

Definition set_currentPage v (s : State) : State :=
  {| transactions := transactions s; balance := balance s; currentPage := v;
     modalIsOpen := modalIsOpen s; editingTransaction := editingTransaction s;
     totalTransactions := totalTransactions s; loadingCards := loadingCards s |}.

Definition set_modalIsOpen v (s : State) : State :=
  {| transactions := transactions s; balance := balance s;
     currentPage := currentPage s;
     modalIsOpen := v; editingTransaction := editingTransaction s;
     totalTransactions := totalTransactions s; loadingCards := loadingCards s |}.

Definition set_editingTransaction v (s : State) : State :=
  {| transactions := transactions s; balance := balance s;
     currentPage := currentPage s;
     modalIsOpen := modalIsOpen s; editingTransaction := Some v;
     totalTransactions := totalTransactions s; loadingCards := loadingCards s |}.

Definition set_totalTransactions v (s : State) : State :=
  {| transactions := transactions s; balance := balance s;
     currentPage := currentPage s;
     modalIsOpen := modalIsOpen s; editingTransaction := editingTransaction s;
     totalTransactions := v; loadingCards := loadingCards s |}.

Definition set_loadingCards v (s : State) : State :=
  {| transactions := transactions s; balance := balance s;
     currentPage := currentPage s;
     modalIsOpen := modalIsOpen s; editingTransaction := editingTransaction s;
     totalTransactions := totalTransactions s; loadingCards := v |}.

(** Run a program up to its first [await] (or to its end). *)
Fixpoint run (p : async) (w : World) : World :=
  match p with
  | Return => w
  | SetTransactions v k => run k (withState (set_transactions v) w)
  | SetBalance v k => run k (withState (set_balance v) w)
  | SetCurrentPage v k => run k (withState (set_currentPage v) w)
  | SetModalIsOpen v k => run k (withState (set_modalIsOpen v) w)
  | SetEditingTransaction v k => run k (withState (set_editingTransaction v) w)
  | SetTotalTransactions v k => run k (withState (set_totalTransactions v) w)
  | SetLoadingCards v k => run k (withState (set_loadingCards v) w)
  | ToastSuccess message k => run k (notify message w)
  | AwaitGet url k => suspend (GET url) (AwaitingGet k) w
  | AwaitDelete url k => suspend (DELETE url) (AwaitingDelete k) w
  end.

(** Lines 92-94 with the dependency list of line 90: after a render, the
    effect calls [loadTransactions] when the callback is new, which is
    when [currentPage] or [limitPerPage] differ from the last run. *)
Definition commit (w : World) : World :=
  let deps := (currentPage (state w), limitPerPage) in
  if bool_decide (effectDeps w = Some deps)
  then w
  else run (loadTransactions deps.1 deps.2)
         {| state := state w; effectDeps := Some deps;
            pending := pending w; issued := issued w; toasts := toasts w |}.

(** What can happen to a mounted page: a handler is called, or a promise
    is settled.  Handlers are callable whatever the render shows. *)
Inductive Event :=
  | ChangePage (pageNumber : Z)
  | ClickDelete (id0 : jsstring)
  | ClickEdit (transaction : Transaction)
  | CloseModal
  | Fulfil (n : nat) (response : Response)
  | Reject (n : nat).

(** A fulfilled promise resumes its continuation (the value awaited at
    line 126 is discarded by the source); a rejected promise makes the
    suspended function throw at its [await], and nothing catches it. *)
Definition handle (e : Event) (w : World) : World :=
  match e with
  | ChangePage pageNumber => run (handleChangePage pageNumber) w
  | ClickDelete id0 =>
      run (handleDeleteTransaction (transactions (state w)) id0) w
  | ClickEdit transaction => run (openModal transaction) w
  | CloseModal => run closeModal w
  | Fulfil n response =>
      match pending w !! n with
      | Some (AwaitingGet k) => run (k response) (settle n w)
      | Some (AwaitingDelete k) => run k (settle n w)
      | None => w
      end
  | Reject n => settle n w
  end.

Definition step (e : Event) (w : World) : World := commit (handle e w).

Definition steps (es : list Event) (w : World) : World :=
  foldl (λ w e, step e w) w es.

Definition initialWorld : World :=
  {| state := initialState; effectDeps := None;
     pending := ∅; issued := []; toasts := [] |}.

(** First render and first run of the effect. *)
Definition mount : World := commit initialWorld.

(** The reload operation on its own: a call of the current
    [loadTransactions]. *)
Definition reload (w : World) : World :=
  run (loadTransactions (currentPage (state w)) limitPerPage) w.

(** ** The balance cards of the render (lines 148-186) *)

Inductive CardBody :=
  | LoadingPlaceholder (isLoading : bool) (color : jsstring) (size : Z)
  | Figures (heading testid amount : jsstring).

(** The literal of lines 149, 162 and 175.  Its third character is the
    no-break space U+00A0 (bytes C2 A0 in the source file), which is what
    the pt-BR currency format puts between the symbol and the amount; it
    is not the ordinary space U+0020. *)
Definition nanSentinel : jsstring := lit "R$" ++ [160%N] ++ lit "NaN".

Definition incomeCard (s : State) : CardBody :=
  if bool_decide (incomeBalance (balance s) = nanSentinel)
  then LoadingPlaceholder (loadingCards s) (lit "#5636d3") 40
  else Figures (lit "Entradas") (lit "balance-income")
         (incomeBalance (balance s)).


Definition totalCard (s : State) : CardBody :=
  if bool_decide (outcomeBalance (balance s) = nanSentinel)
  then LoadingPlaceholder (loadingCards s) (lit "#5636d3") 40
  else Figures (lit "Total") (lit "balance-total")
         (totalBalance (balance s)).

Definition showsPlaceholder (c : CardBody) : bool :=
  match c with
  | LoadingPlaceholder _ _ _ => true
  | Figures _ _ _ => false
  end.

(** ** Sample data for the worked instances *)

Definition sampleTransaction (d : Date) (i t : string) : Transaction :=
  {| id := lit i; title := lit t; value := lit "1500.50";
     formattedValue := []; formattedDate := [];
     type := Outcome; category := {| category_title := lit "Bills" |};
     created_at := d |}.

Definition sampleResponse (txs : list Transaction) (count : Z) : Response :=
  {| data :=
       {| data_transactions := txs;
          data_balance := {| income := Some (lit "0");
                             outcome := Some (lit "1500.50");
                             total := Some (lit "-1500.50") |};
          data_totalTransactions := count |} |}.

(** ** Vocabulary of the statements *)

(** [e] settles promise [n]. *)
Definition settles (n : nat) (e : Event) : bool :=
  match e with
  | Fulfil m _ | Reject m => bool_decide (m = n)
  | _ => false
  end.

(** [e] is the successful completion of a fetch. *)
Definition fulfilsGet (w : World) (e : Event) : bool :=
  match e with
  | Fulfil n _ =>
      match pending w !! n with
      | Some (AwaitingGet _) => true
      | _ => false
      end
  | _ => false
  end.

(** [e] is the successful completion of a remote delete. *)
Definition fulfilsDelete (w : World) (e : Event) : bool :=
  match e with
  | Fulfil n _ =>
      match pending w !! n with
      | Some (AwaitingDelete _) => true
      | _ => false
      end
  | _ => false
  end.

(** Number of remote deletes that succeed along [es], started in [w]. *)
Fixpoint deletesFulfilled (es : list Event) (w : World) : nat :=
  match es with
  | [] => 0
  | e :: es' =>
      ((if fulfilsDelete w e then 1 else 0) + deletesFulfilled es' (step e w))%nat
  end.

(** No fetch completes successfully along [es], started in [w]. *)
Fixpoint noGetFulfilled (es : list Event) (w : World) : bool :=
  match es with
  | [] => true
  | e :: es' => negb (fulfilsGet w e) && noGetFulfilled es' (step e w)
  end.

(** The effect of lines 92-94 has run for the current cursor. *)
Definition committed (w : World) : Prop :=
  effectDeps w = Some (currentPage (state w), limitPerPage).

(** Promise numbers not handed out yet are not pending. *)
Definition fresh (w : World) : Prop :=
  ∀ n, (length (issued w) ≤ n)%nat → pending w !! n = None.

(** Every stored continuation is the rest of one of the two handlers. *)
Definition known (w : World) : Prop :=
  ∀ n k, pending w !! n = Some k →
    k = AwaitingGet loadTransactions_resume ∨
    ∃ captured id0,
      k = AwaitingDelete (handleDeleteTransaction_resume captured id0).

Definition stable (w : World) : Prop := committed w ∧ fresh w ∧ known w.

(** The state written by a successful fetch. *)
Definition loaded (response : Response) (s : State) : State :=
  set_loadingCards false
    (set_totalTransactions (data_totalTransactions (data response))
      (set_balance (data_balance (data response))
        (set_transactions (data_transactions (data response)) s))).

Arguments lit : simpl never.
Arguments show : simpl never.
Arguments transactionsUrl : simpl never.
Arguments deleteSuccessMessage : simpl never.
Arguments limitPerPage : simpl never.

(** The moves of a page whose stored continuations are [known], one
    constructor per way an event can go. *)
Inductive transition (w : World) : Event → World → Prop :=
  | T_page_same :
      transition w (ChangePage (currentPage (state w))) w
  | T_page_new q :
      q ≠ currentPage (state w) →
      transition w (ChangePage q)
        {| state := set_loadingCards true (set_currentPage q (state w));
           effectDeps := Some (q, limitPerPage);
           pending := <[length (issued w) := AwaitingGet loadTransactions_resume]>
                        (pending w);
           issued := issued w ++ [GET (transactionsUrl q limitPerPage)];
           toasts := toasts w |}
  | T_click_delete x :
      transition w (ClickDelete x)
        (suspend (DELETE (lit "transactions/" ++ x))
           (AwaitingDelete
              (handleDeleteTransaction_resume (transactions (state w)) x)) w)
  | T_click_edit t :
      transition w (ClickEdit t)
        (withState (λ s, set_modalIsOpen true (set_editingTransaction t s)) w)
  | T_close_modal :
      transition w CloseModal (withState (set_modalIsOpen false) w)
  | T_fulfil_get n r :
      pending w !! n = Some (AwaitingGet loadTransactions_resume) →
      transition w (Fulfil n r) (withState (loaded r) (settle n w))
  | T_fulfil_delete n r captured x :
      pending w !! n
        = Some (AwaitingDelete (handleDeleteTransaction_resume captured x)) →
      transition w (Fulfil n r)
        (withState (set_transactions (filter (λ t, id t ≠ x) captured))
           (notify deleteSuccessMessage (settle n w)))
  | T_fulfil_none n r :
      pending w !! n = None →
      transition w (Fulfil n r) w
  | T_reject n :
      transition w (Reject n) (settle n w).

(** ** The table region of the render (lines 188-243)

    A row keeps what its cells print and the two programs its buttons
    start; [captured] is the [transactions] array closed over by the
    [handleDeleteTransaction] of the same render. *)

Record Row := {
  key : jsstring;
  titleCell : jsstring;
  valueClass : jsstring;
  valueCell : jsstring;
  categoryCell : jsstring;
  dateCell : jsstring;
  onEdit : async;
  onDelete : async
}.

Record PaginationProps := {
  activePage : Z;
  itemsCountPerPage : Z;
  totalItemsCount : Z;
  pageRangeDisplayed : Z;
  onChange : Z → async
}.

Inductive TableRegion :=
  | TablePlaceholder (isLoading : bool) (color : jsstring) (size : Z)
  | Table (rows : list Row) (pagination : PaginationProps).

(** Lines 206-229. *)
Definition renderRow
    (captured : list Transaction) (transaction : Transaction) : Row :=
  {| key := id transaction;
     titleCell := title transaction;
     valueClass := match type transaction with
                   | Income => lit "income"
                   | Outcome => lit "outcome"
                   end;
     valueCell := match type transaction with
                  | Income => formattedValue transaction
                  | Outcome => lit "- " ++ formattedValue transaction
                  end;
     categoryCell := category_title (category transaction);
     dateCell := formattedDate transaction;
     onEdit := openModal transaction;
     onDelete := handleDeleteTransaction captured (id transaction) |}.

Definition tableRegion (s : State) : TableRegion :=
  if loadingCards s
  then TablePlaceholder (loadingCards s) (lit "#5636d3") 70
  else Table (renderRow (transactions s) <$> transactionsList (transactions s))
         {| activePage := currentPage s;
            itemsCountPerPage := limitPerPage;
            totalItemsCount := totalTransactions s;
            pageRangeDisplayed := 5;
            onChange := handleChangePage |}.

Definition tableShown (s : State) : bool :=
  match tableRegion s with
  | Table _ _ => true
  | TablePlaceholder _ _ _ => false
  end.

(** ** What can be done through the render

    A button or the pagination control can be used only when the render
    puts it on screen, and then starts the program the render gave it;
    [closeModal] is handed to the modal at every render (line 141); a
    promise can be settled only while it is pending. *)

Inductive Action :=
  | RowEdit (i : nat)
  | RowDelete (i : nat)
  | Paginate (pageNumber : Z)
  | ModalClose
  | Settled (n : nat) (response : Response)
  | Failed (n : nat).

Definition act (a : Action) (w : World) : option World :=
  match a with
  | RowEdit i =>
      match tableRegion (state w) with
      | Table rows _ => (λ row, commit (run (onEdit row) w)) <$> rows !! i
      | TablePlaceholder _ _ _ => None
      end
  | RowDelete i =>
      match tableRegion (state w) with
      | Table rows _ => (λ row, commit (run (onDelete row) w)) <$> rows !! i
      | TablePlaceholder _ _ _ => None
      end
  | Paginate pageNumber =>
      match tableRegion (state w) with
      | Table _ pagination => Some (commit (run (onChange pagination pageNumber) w))
      | TablePlaceholder _ _ _ => None
      end
  | ModalClose => Some (commit (run closeModal w))
  | Settled n response =>
      match pending w !! n with
      | Some _ => Some (step (Fulfil n response) w)
      | None => None
      end
  | Failed n =>
      match pending w !! n with
      | Some _ => Some (step (Reject n) w)
      | None => None
      end
  end.

Fixpoint acts (l : list Action) (w : World) : option World :=
  match l with
  | [] => Some w
  | a :: l' =>
      match act a w with
      | Some w' => acts l' w'
      | None => None
      end
  end.

(** ** Readings of a history *)

(** The requests a history makes, given the cursor it starts from; the
    page of a GET is spelled with its decimal digits. *)
Fixpoint requestsOf (es : list Event) (p : Z) : list Request :=
  match es with
  | [] => []
  | ChangePage q :: es' =>
      (if bool_decide (q = p) then []
       else [GET (lit "/transactions?page=" ++ lit (pretty q)
                    ++ lit "&limit=5")]) ++ requestsOf es' q
  | ClickDelete x :: es' =>
      DELETE (lit "transactions/" ++ x) :: requestsOf es' p
  | _ :: es' => requestsOf es' p
  end.

(** Every page number a history passes to [handleChangePage] is a safe
    integer. *)
Definition safePages (es : list Event) : Prop :=
  Forall (λ e, match e with
               | ChangePage q => safeInteger q
               | _ => True
               end) es.

(** The last page number a history passes to [handleChangePage]. *)
Fixpoint cursorAfter (es : list Event) (p : Z) : Z :=
  match es with
  | [] => p
  | ChangePage q :: es' => cursorAfter es' q
  | _ :: es' => cursorAfter es' p
  end.

(** The modal state a history of modal events leaves. *)
Fixpoint modalAfter (es : list Event) (m : bool * option Transaction)
    : bool * option Transaction :=
  match es with
  | [] => m
  | ClickEdit t :: es' => modalAfter es' (true, Some t)
  | CloseModal :: es' => modalAfter es' (false, m.2)
  | _ :: es' => modalAfter es' m
  end.

(** [e] is the failure of a fetch. *)
Definition rejectsGet (w : World) (e : Event) : bool :=
  match e with
  | Reject n =>
      match pending w !! n with
      | Some (AwaitingGet _) => true
      | _ => false
      end
  | _ => false
  end.

(** No fetch fails along [es], started in [w]. *)
Fixpoint noGetRejected (es : list Event) (w : World) : bool :=
  match es with
  | [] => true
  | e :: es' => negb (rejectsGet w e) && noGetRejected es' (step e w)
  end.

(** Some fetch is waiting for its response. *)
Definition getInFlight (w : World) : bool :=
  existsb (λ n, match pending w !! n with
                | Some (AwaitingGet _) => true
                | _ => false
                end)
    (seq 0 (length (issued w))).

(** ** Equations of [commit] and [step] *)

Lemma commit_committed (w : World) : committed w → commit w = w.
Proof. unfold committed, commit. intros ->. by rewrite bool_decide_true. Qed.

Lemma commit_fetches (w : World) :
  ¬ committed w →
  commit w =
    {| state := set_loadingCards true (state w);
       effectDeps := Some (currentPage (state w), limitPerPage);
       pending := <[length (issued w) := AwaitingGet loadTransactions_resume]>
                    (pending w);
       issued := issued w ++ [GET (transactionsUrl (currentPage (state w))
                                     limitPerPage)];
       toasts := toasts w |}.
Proof. unfold committed, commit. intros Hn. by rewrite bool_decide_false. Qed.

Lemma commit_is_committed (w : World) : committed (commit w).
Proof.
  destruct (decide (committed w)) as [Hc|Hn].
  - by rewrite commit_committed.
  - rewrite commit_fetches by done. by destruct w as [[] ? ? ? ?].
Qed.

Lemma step_is_committed (e : Event) (w : World) : committed (step e w).
Proof. apply commit_is_committed. Qed.

Lemma step_ChangePage_same (w : World) :
  committed w → step (ChangePage (currentPage (state w))) w = w.
Proof.
  intros Hc. unfold step. rewrite commit_committed.
  - by destruct w as [[] ? ? ? ?].
  - by destruct w as [[] ? ? ? ?].
Qed.

Lemma step_ChangePage_new (w : World) (q : Z) :
  committed w → q ≠ currentPage (state w) →
  step (ChangePage q) w =
    {| state := set_loadingCards true (set_currentPage q (state w));
       effectDeps := Some (q, limitPerPage);
       pending := <[length (issued w) := AwaitingGet loadTransactions_resume]>
                    (pending w);
       issued := issued w ++ [GET (transactionsUrl q limitPerPage)];
       toasts := toasts w |}.
Proof.
  intros Hc Hq. unfold step. rewrite commit_fetches; [done |].
  unfold committed in *. cbn. rewrite Hc. intros [= ?]. done.
Qed.

Lemma step_ClickDelete (w : World) (x : jsstring) :
  committed w →
  step (ClickDelete x) w =
    suspend (DELETE (lit "transactions/" ++ x))
      (AwaitingDelete (handleDeleteTransaction_resume (transactions (state w)) x))
      w.
Proof. intros Hc. unfold step. by rewrite commit_committed. Qed.

Lemma step_ClickEdit (w : World) (t : Transaction) :
  committed w →
  step (ClickEdit t) w =
    withState (λ s, set_modalIsOpen true (set_editingTransaction t s)) w.
Proof.
  intros Hc. unfold step. rewrite commit_committed; [done |].
  by destruct w as [[] ? ? ? ?].
Qed.

Lemma step_CloseModal (w : World) :
  committed w → step CloseModal w = withState (set_modalIsOpen false) w.
Proof.
  intros Hc. unfold step. rewrite commit_committed; [done |].
  by destruct w as [[] ? ? ? ?].
Qed.

Lemma step_Fulfil_get (w : World) (n : nat) (r : Response) :
  committed w →
  pending w !! n = Some (AwaitingGet loadTransactions_resume) →
  step (Fulfil n r) w = withState (loaded r) (settle n w).
Proof.
  intros Hc Hn. unfold step. cbn [handle]. rewrite Hn.
  rewrite commit_committed.
  - unfold loaded. cbn. by destruct (data_balance (data r)).
  - by destruct w as [[] ? ? ? ?].
Qed.

Lemma step_Fulfil_delete (w : World) (n : nat) (r : Response)
    (captured : list Transaction) (x : jsstring) :
  committed w →
  pending w !! n
    = Some (AwaitingDelete (handleDeleteTransaction_resume captured x)) →
  step (Fulfil n r) w =
    withState (set_transactions (filter (λ t, id t ≠ x) captured))
      (notify deleteSuccessMessage (settle n w)).
Proof.
  intros Hc Hn. unfold step. cbn [handle]. rewrite Hn.
  rewrite commit_committed; [done |]. by destruct w as [[] ? ? ? ?].
Qed.

Lemma step_Fulfil_none (w : World) (n : nat) (r : Response) :
  committed w → pending w !! n = None → step (Fulfil n r) w = w.
Proof.
  intros Hc Hn. unfold step. cbn [handle]. rewrite Hn.
  by apply commit_committed.
Qed.

Lemma step_Reject (w : World) (n : nat) :
  committed w → step (Reject n) w = settle n w.
Proof. intros Hc. unfold step. by rewrite commit_committed. Qed.

Lemma step_transition (w : World) (e : Event) :
  committed w → known w → transition w e (step e w).
Proof.
  intros Hc Hk. destruct e as [q|x|t| |n r|n].
  - destruct (decide (q = currentPage (state w))) as [->|Hq].
    + rewrite step_ChangePage_same by done. constructor.
    + rewrite step_ChangePage_new by done. by constructor.
  - rewrite step_ClickDelete by done. constructor.
  - rewrite step_ClickEdit by done. constructor.
  - rewrite step_CloseModal by done. constructor.
  - destruct (pending w !! n) as [k|] eqn:Hn.
    + destruct (Hk n k Hn) as [->|(captured & x & ->)].
      * rewrite step_Fulfil_get by done. by constructor.
      * erewrite step_Fulfil_delete by done. by econstructor.
    + rewrite step_Fulfil_none by done. by constructor.
  - rewrite step_Reject by done. constructor.
Qed.

(** ** Invariants of a mounted page *)

Lemma stable_mount : stable mount.
Proof.
  split; [apply commit_is_committed |]. split.
  - intros n Hn. vm_compute in Hn. unfold mount. rewrite commit_fetches by done.
    cbn. rewrite lookup_insert_ne by lia. done.
  - intros n k. unfold mount. rewrite commit_fetches by done. cbn.
    intros [[_ <-]|[_ ?]]%lookup_insert_Some; [by left | done].
Qed.

Lemma transition_fresh (w w' : World) (e : Event) :
  fresh w → transition w e w' → fresh w'.
Proof.
  intros Hf Ht n. destruct Ht; cbn; rewrite ?length_app; cbn; intros Hn;
    try (by apply Hf);
    try (rewrite lookup_insert_ne by lia; apply Hf; lia);
    try (apply lookup_delete_None; right; by apply Hf).
Qed.

Lemma transition_known (w w' : World) (e : Event) :
  known w → transition w e w' → known w'.
Proof.
  intros Hk Ht n k. destruct Ht; cbn; try (by apply Hk).
  - intros [[_ <-]|[_ ?]]%lookup_insert_Some; [by left | by eapply Hk].
  - intros [[_ <-]|[_ ?]]%lookup_insert_Some; [right; eauto | by eapply Hk].
  - intros [_ ?]%lookup_delete_Some. by eapply Hk.
  - intros [_ ?]%lookup_delete_Some. by eapply Hk.
  - intros [_ ?]%lookup_delete_Some. by eapply Hk.
Qed.

Lemma stable_step (w : World) (e : Event) : stable w → stable (step e w).
Proof.
  intros (Hc & Hf & Hk). pose proof (step_transition w e Hc Hk) as Ht.
  split; [apply step_is_committed |].
  split; [by eapply transition_fresh | by eapply transition_known].
Qed.

Lemma steps_cons (e : Event) (es : list Event) (w : World) :
  steps (e :: es) w = steps es (step e w).
Proof. done. Qed.

Lemma steps_snoc (es : list Event) (e : Event) (w : World) :
  steps (es ++ [e]) w = step e (steps es w).
Proof. unfold steps. by rewrite foldl_app. Qed.

Lemma stable_steps (es : list Event) (w : World) :
  stable w → stable (steps es w).
Proof.
  revert w. induction es as [|e es IH]; intros w Hw; [done |].
  rewrite steps_cons. by apply IH, stable_step.
Qed.

Lemma stable_history (es : list Event) : stable (steps es mount).
Proof. apply stable_steps, stable_mount. Qed.

(** Promise numbers are handed out in order and never reused. *)
Lemma transition_issued (w w' : World) (e : Event) :
  transition w e w' → (length (issued w) ≤ length (issued w'))%nat.
Proof. intros Ht. destruct Ht; cbn; rewrite ?length_app; cbn; lia. Qed.

(** An event that does not settle promise [n] leaves it pending. *)
Lemma transition_pending (w w' : World) (e : Event) (n : nat) :
  (n < length (issued w))%nat → settles n e = false →
  transition w e w' → pending w' !! n = pending w !! n.
Proof.
  intros Hn He Ht. destruct Ht; cbn in *;
    try done;
    try (by rewrite lookup_insert_ne by lia);
    try (case_bool_decide; [done |]; by rewrite lookup_delete_ne).
Qed.

Lemma steps_pending (es : list Event) (w : World) (n : nat) :
  stable w → (n < length (issued w))%nat →
  forallb (λ e, negb (settles n e)) es = true →
  pending (steps es w) !! n = pending w !! n.
Proof.
  revert w. induction es as [|e es IH]; intros w Hw Hn Hes; [done |].
  cbn in Hes. apply andb_prop in Hes as [He Hes]. apply negb_true_iff in He.
  destruct Hw as (Hc & Hf & Hk).
  pose proof (step_transition w e Hc Hk) as Ht.
  rewrite steps_cons, IH.
  - by eapply transition_pending.
  - by apply stable_step.
  - pose proof (transition_issued _ _ _ Ht). lia.
  - done.
Qed.

(** ** Lemmas shared by the statements about handlers *)

Lemma stable_reload (w : World) : stable w → stable (reload w).
Proof.
  intros (Hc & Hf & Hk). split; [by destruct w as [[] ? ? ? ?] |]. split.
  - intros n. cbn. rewrite length_app. cbn. intros Hn.
    rewrite lookup_insert_ne by lia. apply Hf. lia.
  - intros n k. cbn.
    intros [[_ <-]|[_ ?]]%lookup_insert_Some; [by left | by eapply Hk].
Qed.

Lemma reload_pending (w : World) :
  pending (reload w) !! length (issued w)
    = Some (AwaitingGet loadTransactions_resume).
Proof. cbn. apply lookup_insert_eq. Qed.

Lemma click_delete_pending (w : World) (x : jsstring) :
  committed w →
  pending (step (ClickDelete x) w) !! length (issued w)
    = Some (AwaitingDelete
              (handleDeleteTransaction_resume (transactions (state w)) x)).
Proof. intros Hc. rewrite step_ClickDelete by done. apply lookup_insert_eq. Qed.

(** Only the successful completion of a fetch clears the busy flag. *)
Lemma busy_until_fetch (es : list Event) (w : World) :
  stable w → loadingCards (state w) = true →
  noGetFulfilled es w = true →
  loadingCards (state (steps es w)) = true.
Proof.
  revert w. induction es as [|e es IH]; intros w Hw Hb Hes; [done |].
  cbn [noGetFulfilled] in Hes. apply andb_prop in Hes as [He Hes].
  apply negb_true_iff in He. rewrite steps_cons.
  apply IH; [by apply stable_step | | done].
  destruct Hw as (Hc & _ & Hk).
  destruct (step_transition w e Hc Hk) as [| | | | |n r Hn| | |]; try done.
  cbn in He. by rewrite Hn in He.
Qed.

(** One notification per successful remote delete, and no other. *)
Lemma toasts_count (es : list Event) (w : World) :
  stable w →
  length (toasts (steps es w)) = (length (toasts w) + deletesFulfilled es w)%nat.
Proof.
  revert w. induction es as [|e es IH]; intros w Hw; [cbn; lia |].
  rewrite steps_cons, IH by (by apply stable_step).
  cbn [deletesFulfilled]. destruct Hw as (Hc & _ & Hk).
  destruct (step_transition w e Hc Hk) as [| | | | |n r Hn|n r c x Hn|n r Hn|];
    cbn; rewrite ?Hn, ?length_app; cbn; lia.
Qed.

Lemma filter_id_absent (captured : list Transaction) (x : jsstring) :
  ∀ t, t ∈ filter (λ t, id t ≠ x) captured → id t ≠ x.
Proof. intros t Ht. by apply list_elem_of_filter in Ht as [? _]. Qed.

(** ** Titles of the decorated list *)

Lemma displayTitle_short (t : jsstring) :
  (length t ≤ 15)%nat → displayTitle t = t.
Proof. intros Hle. unfold displayTitle. by rewrite bool_decide_true. Qed.

Lemma displayTitle_long (t : jsstring) :
  (15 < length t)%nat → displayTitle t = take 15 t ++ lit "...".
Proof.
  intros Hlt. unfold displayTitle, concat, substr.
  rewrite bool_decide_false by lia. by rewrite drop_0.
Qed.

Lemma displayTitle_long_length (t : jsstring) :
  (15 < length t)%nat → length (displayTitle t) = 18%nat.
Proof.
  intros Hlt. rewrite displayTitle_long by done.
  rewrite length_app, length_take. change (length (lit "...")) with 3%nat. lia.
Qed.

(** C5: the entry of the decorated list at the position of a source
    transaction carries that transaction's title cut to its first 15 code
    units followed by the three-unit marker "..." (18 units in all) when
    the source title is longer than 15, and the source title itself
    otherwise; the decorated list has one entry per source transaction. *)
Theorem transactionsList_titles
    (txs : list Transaction) (i : nat) (t : Transaction) :
  txs !! i = Some t →
  length (transactionsList txs) = length txs ∧
  ∃ d, transactionsList txs !! i = Some d ∧
    if bool_decide (15 < length (title t))%nat
    then title d = take 15 (title t) ++ lit "..." ∧ length (title d) = 18%nat
    else title d = title t.
Proof.
  intros Ht. unfold transactionsList. split; [apply length_fmap |].
  exists (decorate t). rewrite list_lookup_fmap, Ht. split; [done |].
  cbn [decorate title]. case_bool_decide as Hlen.
  - split; [by apply displayTitle_long | by apply displayTitle_long_length].
  - apply displayTitle_short. lia.
Qed.

(** C9: cutting a title twice is the same as cutting it once, for the
    title expression and for the title of a decorated transaction. *)
Theorem displayTitle_idempotent (t : jsstring) (tx : Transaction) :
  displayTitle (displayTitle t) = displayTitle t ∧
  title (decorate (decorate tx)) = title (decorate tx).
Proof.
  assert (Hidem : ∀ u : jsstring, displayTitle (displayTitle u) = displayTitle u).
  { intros u. destruct (decide (length u ≤ 15)%nat) as [Hle|Hgt].
    - rewrite (displayTitle_short u) by done. by apply displayTitle_short.
    - rewrite (displayTitle_long (displayTitle u))
        by (rewrite displayTitle_long_length; lia).
      rewrite (displayTitle_long u) by lia.
      rewrite take_app_le by (rewrite length_take; lia).
      rewrite take_take. by replace (15 `min` 15)%nat with 15%nat by lia. }
  split; [apply Hidem | apply (Hidem (title tx))].
Qed.

(** ** The balance cards *)



(** ** Reload *)

Lemma steps_app (es es' : list Event) (w : World) :
  steps (es ++ es') w = steps es' (steps es w).
Proof. unfold steps. by rewrite foldl_app. Qed.

Lemma limit_suffix : lit "&limit=" ++ show limitPerPage = lit "&limit=5".
Proof. reflexivity. Qed.

Lemma transactionsUrl_page (page : Z) :
  transactionsUrl page limitPerPage
    = lit "/transactions?page=" ++ show page ++ lit "&limit=5".
Proof. unfold transactionsUrl. by rewrite limit_suffix. Qed.

(** C4: a reload raises the busy flag and issues one GET whose page is
    the cursor, written with its decimal digits, and whose limit is 5;
    when that request succeeds, whatever else happened in between, the
    list, the balance and the total count are those of the response and
    the busy flag is down.  The cursor is a safe integer. *)
Theorem reload_replaces_wholesale
    (es0 es : list Event) (r : Response) :
  safeInteger (currentPage (state (steps es0 mount))) →
  forallb (λ e, negb (settles (length (issued (steps es0 mount))) e)) es
    = true →
  let w0 := steps es0 mount in
  let w1 := reload w0 in
  let w2 := steps es w1 in
  let w3 := step (Fulfil (length (issued w0)) r) w2 in
  loadingCards (state w1) = true ∧
  issued w1 = issued w0 ++
    [GET (lit "/transactions?page=" ++ lit (pretty (currentPage (state w0)))
            ++ lit "&limit=5")] ∧
  transactions (state w3) = data_transactions (data r) ∧
  balance (state w3) = data_balance (data r) ∧
  totalTransactions (state w3) = data_totalTransactions (data r) ∧
  loadingCards (state w3) = false.
Proof.
  intros _ Hes w0 w1 w2 w3.
  assert (Hw1 : stable w1) by apply stable_reload, stable_history.
  assert (Hw2 : stable w2) by by apply stable_steps.
  assert (Hn : pending w2 !! length (issued w0)
               = Some (AwaitingGet loadTransactions_resume)).
  { unfold w2. rewrite steps_pending; [apply reload_pending | done | | done].
    cbn. rewrite length_app. cbn. lia. }
  split; [done |]. split; [cbn; by rewrite transactionsUrl_page |].
  unfold w3. rewrite step_Fulfil_get by (done || apply Hw2). done.
Qed.

(** C7: when the request of a reload is rejected nothing resumes: the
    state, with the busy flag raised before the request, stays as the
    reload left it, the list, balance and total count are the ones held
    before, and the busy flag stays up for as long as no other fetch
    completes successfully. *)
Theorem reload_failure_keeps_busy (es0 es : list Event) :
  noGetFulfilled es
    (step (Reject (length (issued (steps es0 mount))))
       (reload (steps es0 mount))) = true →
  let w0 := steps es0 mount in
  let w1 := reload w0 in
  let w2 := step (Reject (length (issued w0))) w1 in
  loadingCards (state w1) = true ∧
  state w2 = state w1 ∧
  transactions (state w2) = transactions (state w0) ∧
  balance (state w2) = balance (state w0) ∧
  totalTransactions (state w2) = totalTransactions (state w0) ∧
  pending w2 !! length (issued w0) = None ∧
  toasts w2 = toasts w0 ∧
  loadingCards (state (steps es w2)) = true.
Proof.
  intros Hes w0 w1 w2.
  assert (Hw1 : stable w1) by apply stable_reload, stable_history.
  assert (Hw2 : stable w2) by by apply stable_step.
  assert (E : w2 = settle (length (issued w0)) w1).
  { unfold w2. apply step_Reject, Hw1. }
  split; [done |]. rewrite E at 1 2 3 4 5 6.
  repeat (split; [done || apply lookup_delete_eq |]).
  apply busy_until_fetch; [done | by rewrite E | done].
Qed.

(** ** Changing the page *)

(** C8: a page change sets the cursor to the safe integer it is given,
    whatever the total count is; when the number differs from the
    cursor it issues exactly one GET, whose page is that number written
    with its decimal digits, and the completion of that request issues
    no other; when it is the same number nothing is issued. *)
Theorem change_page_fetches_once (es0 : list Event) (q : Z) (r : Response) :
  safeInteger q →
  let w0 := steps es0 mount in
  let w1 := step (ChangePage q) w0 in
  let w2 := step (Fulfil (length (issued w0)) r) w1 in
  currentPage (state w1) = q ∧
  totalTransactions (state w1) = totalTransactions (state w0) ∧
  issued w1 = issued w0 ++
    (if bool_decide (q = currentPage (state w0)) then []
     else [GET (lit "/transactions?page=" ++ lit (pretty q)
                  ++ lit "&limit=5")]) ∧
  issued w2 = issued w1 ∧
  currentPage (state w2) = q.
Proof.
  intros _ w0 w1 w2. destruct (stable_history es0) as (Hc & Hf & Hk).
  fold w0 in Hc, Hf, Hk. case_bool_decide as Hq.
  - assert (E1 : w1 = w0) by (unfold w1; rewrite Hq; by apply step_ChangePage_same).
    assert (E2 : w2 = w0).
    { unfold w2. rewrite E1. apply step_Fulfil_none; [done |]. by apply Hf. }
    rewrite E2, E1. by rewrite app_nil_r.
  - assert (E1 : w1 = _) by (unfold w1; by apply step_ChangePage_new).
    assert (E2 : w2 = withState (loaded r) (settle (length (issued w0)) w1)).
    { unfold w2. apply step_Fulfil_get; [apply step_is_committed |].
      rewrite E1. apply lookup_insert_eq. }
    clearbody w1 w2. subst w2 w1. cbn.
    by rewrite transactionsUrl_page.
Qed.

(** C10: two page changes in a row, to safe integers, issue two GETs,
    one for each page, both pending at once; whichever of the two is
    fulfilled last supplies the list, the balance and the total count,
    whether or not it is the one for the page the cursor is on. *)
Theorem overlapping_reloads_last_wins
    (es0 : list Event) (q1 q2 : Z) (r1 r2 : Response) :
  safeInteger q1 → safeInteger q2 →
  q1 ≠ currentPage (state (steps es0 mount)) → q2 ≠ q1 →
  let w0 := steps es0 mount in
  let n1 := length (issued w0) in
  let n2 := S n1 in
  let w2 := step (ChangePage q2) (step (ChangePage q1) w0) in
  let a := step (Fulfil n2 r2) (step (Fulfil n1 r1) w2) in
  let b := step (Fulfil n1 r1) (step (Fulfil n2 r2) w2) in
  issued w2 = issued w0 ++
    [GET (lit "/transactions?page=" ++ lit (pretty q1) ++ lit "&limit=5");
     GET (lit "/transactions?page=" ++ lit (pretty q2) ++ lit "&limit=5")] ∧
  pending w2 !! n1 = Some (AwaitingGet loadTransactions_resume) ∧
  pending w2 !! n2 = Some (AwaitingGet loadTransactions_resume) ∧
  currentPage (state a) = q2 ∧ currentPage (state b) = q2 ∧
  transactions (state a) = data_transactions (data r2) ∧
  balance (state a) = data_balance (data r2) ∧
  totalTransactions (state a) = data_totalTransactions (data r2) ∧
  transactions (state b) = data_transactions (data r1) ∧
  balance (state b) = data_balance (data r1) ∧
  totalTransactions (state b) = data_totalTransactions (data r1).
Proof.
  intros _ _ Hq1 Hq2 w0 n1 n2 w2 a b.
  destruct (stable_history es0) as (Hc & Hf & Hk). fold w0 in Hc, Hf, Hk, Hq1.
  assert (E2 : w2 =
    {| state := set_loadingCards true (set_currentPage q2 (state w0));
       effectDeps := Some (q2, limitPerPage);
       pending := <[n2 := AwaitingGet loadTransactions_resume]>
                    (<[n1 := AwaitingGet loadTransactions_resume]> (pending w0));
       issued := issued w0 ++ [GET (transactionsUrl q1 limitPerPage);
                               GET (transactionsUrl q2 limitPerPage)];
       toasts := toasts w0 |}).
  { unfold w2. rewrite (step_ChangePage_new w0 q1) by done.
    rewrite step_ChangePage_new; [| done | by cbn].
    cbn. rewrite length_app. cbn. rewrite <- (assoc_L (++)). cbn.
    by replace (length (issued w0) + 1)%nat with n2 by (unfold n2, n1; lia). }
  assert (H1 : pending w2 !! n1 = Some (AwaitingGet loadTransactions_resume)).
  { rewrite E2. cbn. rewrite lookup_insert_ne by (unfold n2; lia).
    apply lookup_insert_eq. }
  assert (H2 : pending w2 !! n2 = Some (AwaitingGet loadTransactions_resume)).
  { rewrite E2. cbn. apply lookup_insert_eq. }
  assert (Hc2 : committed w2) by apply step_is_committed.
  assert (Ea : a = withState (loaded r2)
                     (settle n2 (withState (loaded r1) (settle n1 w2)))).
  { unfold a. rewrite (step_Fulfil_get w2 n1) by done.
    apply step_Fulfil_get; [by rewrite E2 |].
    cbn. rewrite lookup_delete_ne by (unfold n2; lia). done. }
  assert (Eb : b = withState (loaded r1)
                     (settle n1 (withState (loaded r2) (settle n2 w2)))).
  { unfold b. rewrite (step_Fulfil_get w2 n2) by done.
    apply step_Fulfil_get; [by rewrite E2 |].
    cbn. rewrite lookup_delete_ne by (unfold n2; lia). done. }
  split; [rewrite E2; cbn; by rewrite !transactionsUrl_page |].
  split; [done |]. split; [done |].
  rewrite Ea, Eb, E2. done.
Qed.

(** ** Deleting a transaction *)

(** C2: when the remote delete of [x] succeeds, the list becomes the
    list held at the click without the entries whose id is [x], so no
    entry with that id is left; the click itself notifies nothing, the
    success adds exactly one notification, and over a whole history the
    notifications are as many as the successful deletes. *)
Theorem delete_removes_and_notifies_once
    (es0 es : list Event) (x : jsstring) (r : Response) :
  forallb (λ e, negb (settles (length (issued (steps es0 mount))) e)) es
    = true →
  let w0 := steps es0 mount in
  let w1 := step (ClickDelete x) w0 in
  let w2 := steps es w1 in
  let ok := Fulfil (length (issued w0)) r in
  let w3 := step ok w2 in
  transactions (state w3)
    = filter (λ t, id t ≠ x) (transactions (state w0)) ∧
  (∀ t, t ∈ transactions (state w3) → id t ≠ x) ∧
  toasts w1 = toasts w0 ∧
  toasts w3 = toasts w2 ++ [deleteSuccessMessage] ∧
  length (toasts w3)
    = deletesFulfilled (es0 ++ ClickDelete x :: es ++ [ok]) mount.
Proof.
  intros Hes w0 w1 w2 ok w3.
  destruct (stable_history es0) as (Hc & Hf & Hk). fold w0 in Hc, Hf, Hk.
  assert (Hw1 : stable w1) by apply stable_step, stable_history.
  assert (Hw2 : stable w2) by by apply stable_steps.
  assert (Hn : pending w2 !! length (issued w0)
    = Some (AwaitingDelete
              (handleDeleteTransaction_resume (transactions (state w0)) x))).
  { unfold w2. rewrite steps_pending; [by apply click_delete_pending | done | | done].
    unfold w1. rewrite step_ClickDelete by done. cbn. rewrite length_app. cbn. lia. }
  assert (E3 : w3 = _) by (unfold w3, ok; eapply step_Fulfil_delete; [apply Hw2 | done]).
  assert (Htx : transactions (state w3)
                = filter (λ t, id t ≠ x) (transactions (state w0))) by by rewrite E3.
  split; [done |]. split; [rewrite Htx; apply filter_id_absent |].
  split; [unfold w1; by rewrite step_ClickDelete |].
  split; [by rewrite E3 |].
  assert (Eh : w3 = steps (es0 ++ ClickDelete x :: es ++ [ok]) mount).
  { rewrite steps_app, steps_cons, steps_snoc. done. }
  rewrite Eh, toasts_count by apply stable_mount. done.
Qed.

(** C3: a successful delete writes the transaction list and nothing else
    of the component state: balance, total count, page cursor, busy flag
    and modal state are the ones held before, and the only request it
    ever issues is the DELETE itself. *)
Theorem delete_touches_only_the_list
    (es0 es : list Event) (x : jsstring) (r : Response) :
  forallb (λ e, negb (settles (length (issued (steps es0 mount))) e)) es
    = true →
  let w0 := steps es0 mount in
  let w1 := step (ClickDelete x) w0 in
  let w2 := steps es w1 in
  let w3 := step (Fulfil (length (issued w0)) r) w2 in
  state w1 = state w0 ∧
  issued w1 = issued w0 ++ [DELETE (lit "transactions/" ++ x)] ∧
  balance (state w3) = balance (state w2) ∧
  totalTransactions (state w3) = totalTransactions (state w2) ∧
  currentPage (state w3) = currentPage (state w2) ∧
  loadingCards (state w3) = loadingCards (state w2) ∧
  modalIsOpen (state w3) = modalIsOpen (state w2) ∧
  editingTransaction (state w3) = editingTransaction (state w2) ∧
  issued w3 = issued w2.
Proof.
  intros Hes w0 w1 w2 w3.
  destruct (stable_history es0) as (Hc & Hf & Hk). fold w0 in Hc, Hf, Hk.
  assert (Hw1 : stable w1) by apply stable_step, stable_history.
  assert (Hw2 : stable w2) by by apply stable_steps.
  assert (Hn : pending w2 !! length (issued w0)
    = Some (AwaitingDelete
              (handleDeleteTransaction_resume (transactions (state w0)) x))).
  { unfold w2. rewrite steps_pending; [by apply click_delete_pending | done | | done].
    unfold w1. rewrite step_ClickDelete by done. cbn. rewrite length_app. cbn. lia. }
  assert (E3 : w3 = _) by (unfold w3; eapply step_Fulfil_delete; [apply Hw2 | done]).
  split; [unfold w1; by rewrite step_ClickDelete |].
  split; [unfold w1; by rewrite step_ClickDelete |].
  by rewrite E3.
Qed.

(** C6: when the remote delete is rejected the handler never resumes:
    the click had not touched the list, the rejection leaves the whole
    component state and the notifications as they were, and the
    continuation that would have removed the entry is gone. *)
Theorem delete_failure_changes_nothing
    (es0 es : list Event) (x : jsstring) :
  forallb (λ e, negb (settles (length (issued (steps es0 mount))) e)) es
    = true →
  let w0 := steps es0 mount in
  let w1 := step (ClickDelete x) w0 in
  let w2 := steps es w1 in
  let w3 := step (Reject (length (issued w0))) w2 in
  transactions (state w1) = transactions (state w0) ∧
  toasts w1 = toasts w0 ∧
  pending w2 !! length (issued w0)
    = Some (AwaitingDelete
              (handleDeleteTransaction_resume (transactions (state w0)) x)) ∧
  state w3 = state w2 ∧
  transactions (state w3) = transactions (state w2) ∧
  toasts w3 = toasts w2 ∧
  issued w3 = issued w2 ∧
  pending w3 !! length (issued w0) = None.
Proof.
  intros Hes w0 w1 w2 w3.
  destruct (stable_history es0) as (Hc & Hf & Hk). fold w0 in Hc, Hf, Hk.
  assert (Hw1 : stable w1) by apply stable_step, stable_history.
  assert (Hw2 : stable w2) by by apply stable_steps.
  assert (Hn : pending w2 !! length (issued w0)
    = Some (AwaitingDelete
              (handleDeleteTransaction_resume (transactions (state w0)) x))).
  { unfold w2. rewrite steps_pending; [by apply click_delete_pending | done | | done].
    unfold w1. rewrite step_ClickDelete by done. cbn. rewrite length_app. cbn. lia. }
  assert (E3 : w3 = settle (length (issued w0)) w2) by apply step_Reject, Hw2.
  split; [unfold w1; by rewrite step_ClickDelete |].
  split; [unfold w1; by rewrite step_ClickDelete |].
  split; [done |]. rewrite E3. repeat (split; [done |]).
  apply lookup_delete_eq.
Qed.

(** ** More on titles and decoration *)

Lemma displayTitle_length (t : jsstring) :
  length (displayTitle t)
  = if bool_decide (length t ≤ 15)%nat then length t else 18%nat.
Proof.
  case_bool_decide.
  - by rewrite displayTitle_short.
  - apply displayTitle_long_length. lia.
Qed.

Lemma displayTitle_twice (t : jsstring) :
  displayTitle (displayTitle t) = displayTitle t.
Proof.
  destruct (decide (length t ≤ 15)%nat) as [Hle|Hgt].
  - rewrite (displayTitle_short t) by done. by apply displayTitle_short.
  - rewrite (displayTitle_long (displayTitle t))
      by (rewrite displayTitle_long_length; lia).
    rewrite (displayTitle_long t) by lia.
    rewrite take_app_le by (rewrite length_take; lia).
    rewrite take_take. by replace (15 `min` 15)%nat with 15%nat by lia.
Qed.

(** X1: a display title never has more than 18 code units, is at most
    two units longer than its source (which happens for sources of 16
    units), and always starts with the same 15 units as its source. *)
Theorem displayTitle_bounds (t : jsstring) :
  (length (displayTitle t) ≤ 18)%nat ∧
  (length (displayTitle t) ≤ length t + 2)%nat ∧
  take 15 (displayTitle t) = take 15 t.
Proof.
  rewrite displayTitle_length. case_bool_decide as Hlen.
  - rewrite displayTitle_short by done. repeat split; lia || done.
  - rewrite displayTitle_long by lia. repeat split; [lia.. |].
    rewrite take_app_le by (rewrite length_take; lia).
    rewrite take_take. by replace (15 `min` 15)%nat with 15%nat by lia.
Qed.

(** X2: the titles that the decoration leaves as they are are exactly
    those of at most 15 code units and those of 18 code units whose last
    three are "...". *)
Theorem displayTitle_fixed_points (t : jsstring) :
  displayTitle t = t ↔
  (length t ≤ 15)%nat ∨ (length t = 18%nat ∧ drop 15 t = lit "...").
Proof.
  split.
  - intros Hfix. destruct (decide (length t ≤ 15)%nat) as [Hle|Hgt]; [by left |].
    right. pose proof (displayTitle_length t) as Hlen.
    rewrite bool_decide_false in Hlen by done. rewrite Hfix in Hlen.
    split; [done |]. rewrite displayTitle_long in Hfix by lia.
    rewrite <- Hfix at 1. rewrite drop_app_length'; [done |].
    rewrite length_take. lia.
  - intros [Hle|[Hlen Hdrop]]; [by apply displayTitle_short |].
    rewrite displayTitle_long by lia. rewrite <- Hdrop. apply take_drop.
Qed.

Lemma decorate_twice (t : Transaction) : decorate (decorate t) = decorate t.
Proof. unfold decorate. cbn. by rewrite displayTitle_twice. Qed.

(** X3: decorating a decorated list changes nothing; the formatted
    fields that come with a transaction play no part in the decoration;
    and the decorated list has the ids of the source list, in order. *)
Theorem transactionsList_idempotent
    (txs : list Transaction) (t : Transaction) (fv fd : jsstring) :
  transactionsList (transactionsList txs) = transactionsList txs ∧
  decorate {| id := id t; title := title t; value := value t;
              formattedValue := fv; formattedDate := fd;
              type := type t; category := category t;
              created_at := created_at t |} = decorate t ∧
  id <$> transactionsList txs = id <$> txs.
Proof.
  unfold transactionsList. split; [| split; [done |]].
  - rewrite <- list_fmap_compose. apply list_fmap_ext.
    intros i x _. apply decorate_twice.
  - rewrite <- list_fmap_compose. by apply list_fmap_ext.
Qed.

(** ** Readings of a history *)

Lemma requestsOf_steps (es : list Event) (w : World) :
  stable w →
  issued (steps es w) = issued w ++ requestsOf es (currentPage (state w)).
Proof.
  revert w. induction es as [|e es IH]; intros w Hw; [by rewrite app_nil_r |].
  rewrite steps_cons, IH by (by apply stable_step).
  destruct Hw as (Hc & _ & Hk).
  destruct (step_transition w e Hc Hk); cbn;
    rewrite ?bool_decide_true, ?bool_decide_false by done;
    rewrite ?transactionsUrl_page; by rewrite <- ?(assoc_L (++)).
Qed.

Lemma cursorAfter_steps (es : list Event) (w : World) :
  stable w →
  currentPage (state (steps es w)) = cursorAfter es (currentPage (state w)).
Proof.
  revert w. induction es as [|e es IH]; intros w Hw; [done |].
  rewrite steps_cons, IH by (by apply stable_step).
  destruct Hw as (Hc & _ & Hk).
  by destruct (step_transition w e Hc Hk).
Qed.

Lemma modalAfter_steps (es : list Event) (w : World) :
  stable w →
  (modalIsOpen (state (steps es w)), editingTransaction (state (steps es w)))
  = modalAfter es (modalIsOpen (state w), editingTransaction (state w)).
Proof.
  revert w. induction es as [|e es IH]; intros w Hw; [done |].
  rewrite steps_cons, IH by (by apply stable_step).
  destruct Hw as (Hc & _ & Hk).
  by destruct (step_transition w e Hc Hk).
Qed.

(** X4: the requests made over a whole history whose page numbers are
    safe integers depend on the handler calls only: the GET of the first
    render, one GET with limit 5 for each page change to a number other
    than the cursor, one DELETE for each delete click, and nothing for
    modal events, responses or failures. *)
Theorem requests_follow_user_events (es : list Event) :
  safePages es →
  issued (steps es mount)
  = GET (lit "/transactions?page=1&limit=5") :: requestsOf es 1.
Proof. intros _. rewrite requestsOf_steps by apply stable_mount. done. Qed.

(** X5: the page cursor is the last number passed to [handleChangePage],
    or 1 if there was none: responses, failures, deletes and modal events
    never move it. *)
Theorem cursor_follows_page_changes (es : list Event) :
  currentPage (state (steps es mount)) = cursorAfter es 1.
Proof. rewrite cursorAfter_steps by apply stable_mount. done. Qed.

(** X6: the modal is open exactly when the last modal event was an edit
    click, and the transaction under edit is the one of the last edit
    click: closing the modal keeps it, and no response, failure, delete
    or page change replaces it. *)
Theorem modal_follows_modal_events (es : list Event) :
  (modalIsOpen (state (steps es mount)),
   editingTransaction (state (steps es mount)))
  = modalAfter es (false, None).
Proof. rewrite modalAfter_steps by apply stable_mount. done. Qed.

(** ** The busy flag and the fetches in flight *)

Lemma getInFlight_spec (w : World) :
  fresh w →
  getInFlight w = true ↔ ∃ n k, pending w !! n = Some (AwaitingGet k).
Proof.
  intros Hf. unfold getInFlight. rewrite existsb_exists. split.
  - intros (n & _ & Hn).
    destruct (pending w !! n) as [[k|]|] eqn:E; [eauto | done..].
  - intros (n & k & Hn). exists n. rewrite Hn. split; [| done].
    apply in_seq. destruct (decide (n < length (issued w))%nat); [lia |].
    rewrite Hf in Hn by lia. done.
Qed.

Lemma transition_busy (w w' : World) (e : Event) :
  fresh w → rejectsGet w e = false → transition w e w' →
  (loadingCards (state w) = true →
   ∃ n k, pending w !! n = Some (AwaitingGet k)) →
  loadingCards (state w') = true →
  ∃ n k, pending w' !! n = Some (AwaitingGet k).
Proof.
  intros Hf He Ht HJ.
  destruct Ht as [|q Hq|x|t| |n r Hn|n r c x Hn|n r Hn|n]; cbn;
    try done; intros Hb.
  - eexists _, _. apply lookup_insert_eq.
  - destruct (HJ Hb) as (m & k & Hm). exists m, k.
    rewrite lookup_insert_ne; [done |]. intros <-. by rewrite Hf in Hm.
  - destruct (HJ Hb) as (m & k & Hm). exists m, k.
    rewrite lookup_delete_ne; [done |]. intros <-. by rewrite Hn in Hm.
  - destruct (HJ Hb) as (m & k & Hm). exists m, k.
    rewrite lookup_delete_ne; [done |]. intros <-. cbn in He.
    by rewrite Hm in He.
Qed.

Lemma busy_has_fetch (es : list Event) (w : World) :
  stable w →
  (loadingCards (state w) = true →
   ∃ n k, pending w !! n = Some (AwaitingGet k)) →
  noGetRejected es w = true →
  loadingCards (state (steps es w)) = true →
  ∃ n k, pending (steps es w) !! n = Some (AwaitingGet k).
Proof.
  revert w. induction es as [|e es IH]; intros w Hw HJ Hes; [done |].
  cbn [noGetRejected] in Hes. apply andb_prop in Hes as [He Hes].
  apply negb_true_iff in He. rewrite steps_cons.
  apply IH; [by apply stable_step | | done].
  destruct Hw as (Hc & Hf & Hk).
  by eapply transition_busy, HJ; [| | apply step_transition].
Qed.

(** X7: as long as no fetch has failed, the busy flag is up only while
    a fetch is waiting for its response: once every fetch has been
    answered the flag is down and the table is on screen. *)
Theorem busy_only_while_fetching (es : list Event) :
  noGetRejected es mount = true →
  getInFlight (steps es mount) = false →
  loadingCards (state (steps es mount)) = false ∧
  tableShown (state (steps es mount)) = true.
Proof.
  intros Hes Hfl.
  assert (Hb : loadingCards (state (steps es mount)) = false).
  { destruct (loadingCards (state (steps es mount))) eqn:Hb; [| done].
    assert (getInFlight (steps es mount) = true) as Hin; [| congruence].
    apply getInFlight_spec; [apply stable_history |].
    apply busy_has_fetch; [apply stable_mount | | done | done].
    intros _. exists 0%nat, loadTransactions_resume. unfold mount.
    rewrite commit_fetches by done. apply lookup_insert_eq. }
  split; [done |]. unfold tableShown, tableRegion. by rewrite Hb.
Qed.

(** ** Edge cases of the delete *)

Lemma filter_keeps_all (l : list Transaction) (x : jsstring) :
  Forall (λ t, id t ≠ x) l → filter (λ t, id t ≠ x) l = l.
Proof.
  induction 1 as [|t l Ht _ IH]; [done |].
  rewrite filter_cons_True by done. by rewrite IH.
Qed.

(** X8: deleting an id that no entry of the list carries still sends
    the DELETE and, when it succeeds, still notifies, while the list
    stays as it was. *)
Theorem delete_of_absent_id
    (es0 : list Event) (x : jsstring) (r : Response) :
  Forall (λ t, id t ≠ x) (transactions (state (steps es0 mount))) →
  let w0 := steps es0 mount in
  let w1 := step (ClickDelete x) w0 in
  let w2 := step (Fulfil (length (issued w0)) r) w1 in
  issued w2 = issued w0 ++ [DELETE (lit "transactions/" ++ x)] ∧
  transactions (state w2) = transactions (state w0) ∧
  toasts w2 = toasts w0 ++ [deleteSuccessMessage].
Proof.
  intros Habs w0 w1 w2.
  destruct (stable_history es0) as (Hc & Hf & Hk). fold w0 in Hc, Hf, Hk.
  assert (E1 : w1 = _) by (unfold w1; by apply step_ClickDelete).
  assert (E2 : w2 = _)
    by (unfold w2; eapply step_Fulfil_delete;
        [apply step_is_committed | by apply click_delete_pending]).
  clearbody w1 w2. subst w2 w1. cbn. by rewrite filter_keeps_all.
Qed.

(** X9: two deletes clicked one after the other, before the first is
    answered, both filter the list held at the clicks; when both succeed
    the list is that list without the second id, so the entries of the
    first id are back in it although two success notifications were
    shown. *)
Theorem second_delete_restores_first
    (es0 : list Event) (x y : jsstring) (r r' : Response) (t : Transaction) :
  x ≠ y → t ∈ transactions (state (steps es0 mount)) → id t = x →
  let w0 := steps es0 mount in
  let n := length (issued w0) in
  let w2 := step (ClickDelete y) (step (ClickDelete x) w0) in
  let w3 := step (Fulfil n r) w2 in
  let w4 := step (Fulfil (S n) r') w3 in
  (t ∉ transactions (state w3)) ∧
  transactions (state w4)
    = filter (λ t, id t ≠ y) (transactions (state w0)) ∧
  t ∈ transactions (state w4) ∧
  toasts w4 = toasts w0 ++ [deleteSuccessMessage; deleteSuccessMessage].
Proof.
  intros Hxy Ht Hid w0 n w2 w3 w4.
  destruct (stable_history es0) as (Hc & Hf & Hk). fold w0 in Hc, Hf, Hk, Ht.
  assert (E2 : w2 =
    suspend (DELETE (lit "transactions/" ++ y))
      (AwaitingDelete (handleDeleteTransaction_resume (transactions (state w0)) y))
      (suspend (DELETE (lit "transactions/" ++ x))
         (AwaitingDelete (handleDeleteTransaction_resume (transactions (state w0)) x))
         w0)).
  { unfold w2. rewrite (step_ClickDelete w0) by done.
    by rewrite step_ClickDelete. }
  assert (E3 : w3 = _)
    by (unfold w3; eapply step_Fulfil_delete; [apply step_is_committed |];
        rewrite E2; cbn; rewrite length_app; cbn;
        rewrite lookup_insert_ne by (unfold n; lia); apply lookup_insert_eq).
  assert (E4 : w4 = _)
    by (unfold w4; eapply step_Fulfil_delete; [apply step_is_committed |];
        rewrite E3, E2; cbn; rewrite length_app; cbn;
        rewrite lookup_delete_ne by lia;
        replace (length (issued w0) + 1)%nat with (S n) by (unfold n; lia);
        apply lookup_insert_eq).
  clearbody w2 w3 w4. subst w4 w3 w2. cbn.
  split; [intros [Hne _]%list_elem_of_filter; by apply Hne |].
  split; [done |].
  split; [rewrite list_elem_of_filter; split; [congruence | done] |].
  by rewrite <- (assoc_L (++)).
Qed.

(** ** The table and its controls *)

Lemma tableRegion_ready (s : State) :
  loadingCards s = false →
  tableRegion s
  = Table (renderRow (transactions s) <$> transactionsList (transactions s))
      {| activePage := currentPage s;
         itemsCountPerPage := limitPerPage;
         totalItemsCount := totalTransactions s;
         pageRangeDisplayed := 5;
         onChange := handleChangePage |}.
Proof. unfold tableRegion. by intros ->. Qed.

Lemma tableRegion_busy (s : State) :
  loadingCards s = true →
  tableRegion s = TablePlaceholder true (lit "#5636d3") 70.
Proof. unfold tableRegion. by intros ->. Qed.

Lemma act_RowEdit (w : World) (i : nat) (t : Transaction) :
  loadingCards (state w) = false → transactions (state w) !! i = Some t →
  act (RowEdit i) w = Some (step (ClickEdit (decorate t)) w).
Proof.
  intros Hl Ht. unfold act. rewrite tableRegion_ready by done.
  unfold transactionsList. by rewrite !list_lookup_fmap, Ht.
Qed.

(** X10: when a fetch succeeds the table is on screen with one row per
    transaction of the response, in the order of the response and
    however many they are (the page size goes into the request only);
    the pagination control gets the response's total count, the page
    size 5 and the cursor. *)
Theorem table_after_load (es0 es : list Event) (r : Response) :
  forallb (λ e, negb (settles (length (issued (steps es0 mount))) e)) es
    = true →
  let w0 := steps es0 mount in
  let w2 := steps es (reload w0) in
  let w3 := step (Fulfil (length (issued w0)) r) w2 in
  ∃ rows pagination,
    tableRegion (state w3) = Table rows pagination ∧
    key <$> rows = id <$> data_transactions (data r) ∧
    length rows = length (data_transactions (data r)) ∧
    totalItemsCount pagination = data_totalTransactions (data r) ∧
    itemsCountPerPage pagination = 5 ∧
    activePage pagination = currentPage (state w2).
Proof.
  intros Hes w0 w2 w3.
  assert (Hw1 : stable (reload w0)) by apply stable_reload, stable_history.
  assert (Hw2 : stable w2) by by apply stable_steps.
  assert (Hn : pending w2 !! length (issued w0)
               = Some (AwaitingGet loadTransactions_resume)).
  { unfold w2. rewrite steps_pending; [apply reload_pending | done | | done].
    cbn. rewrite length_app. cbn. lia. }
  assert (E3 : w3 = withState (loaded r) (settle (length (issued w0)) w2))
    by (apply step_Fulfil_get; [apply Hw2 | done]).
  rewrite E3. eexists _, _. split; [by apply tableRegion_ready |].
  cbn. unfold transactionsList. rewrite <- !list_fmap_compose, !length_fmap.
  split; [by apply list_fmap_ext |]. done.
Qed.

(** X11: while the table is on screen, the row at the position of a
    transaction prints the cut title, the value formatted anew from the
    [value] field (with "- " in front and the class "outcome" for an
    outcome, the class "income" otherwise), the category title and the
    date formatted from [created_at]; the formatted fields stored with
    the transaction are not what is printed. *)
Theorem row_cells (s : State) (i : nat) (t : Transaction) :
  loadingCards s = false → transactions s !! i = Some t →
  ∃ rows pagination row,
    tableRegion s = Table rows pagination ∧ rows !! i = Some row ∧
    key row = id t ∧
    titleCell row = displayTitle (title t) ∧
    valueCell row
      = (match type t with Income => [] | Outcome => lit "- " end)
        ++ formatValue (Number_ (Some (value t))) ∧
    valueClass row
      = (match type t with Income => lit "income" | Outcome => lit "outcome" end) ∧
    categoryCell row = category_title (category t) ∧
    dateCell row = formatDate (created_at t).
Proof.
  intros Hl Ht. eexists _, _, _. split; [by apply tableRegion_ready |].
  unfold transactionsList. rewrite !list_lookup_fmap, Ht. cbn.
  split; [done |]. cbn. by destruct (type t).
Qed.

(** X12: the edit button of a row hands the modal the decorated
    transaction, not the stored one: the transaction under edit has the
    cut title and the freshly formatted fields; the click opens the
    modal, leaves the list alone and sends nothing. *)
Theorem edit_receives_decorated
    (es0 : list Event) (i : nat) (t : Transaction) :
  loadingCards (state (steps es0 mount)) = false →
  transactions (state (steps es0 mount)) !! i = Some t →
  let w0 := steps es0 mount in
  ∃ w1, act (RowEdit i) w0 = Some w1 ∧
    editingTransaction (state w1) = Some (decorate t) ∧
    title <$> editingTransaction (state w1) = Some (displayTitle (title t)) ∧
    modalIsOpen (state w1) = true ∧
    transactions (state w1) = transactions (state w0) ∧
    issued w1 = issued w0.
Proof.
  intros Hl Ht w0. eexists. split; [by apply act_RowEdit |].
  rewrite step_ClickEdit by apply stable_history. done.
Qed.

Lemma act_locked (a : Action) (w w' : World) :
  stable w → loadingCards (state w) = true →
  (∀ n k, pending w !! n ≠ Some (AwaitingGet k)) →
  act a w = Some w' →
  stable w' ∧ loadingCards (state w') = true ∧
  (∀ n k, pending w' !! n ≠ Some (AwaitingGet k)) ∧
  issued w' = issued w ∧ currentPage (state w') = currentPage (state w).
Proof.
  intros Hw Hb Hno Ha. pose proof Hw as (Hc & Hf & Hk).
  destruct a as [i|i|q| |n r|n]; unfold act in Ha;
    rewrite ?tableRegion_busy in Ha by done; try done.
  - change (Some (step CloseModal w) = Some w') in Ha. injection Ha as <-.
    split; [by apply stable_step |]. by rewrite step_CloseModal.
  - destruct (pending w !! n) as [k|] eqn:Hn; [| done]. injection Ha as <-.
    split; [by apply stable_step |].
    destruct (Hk n k Hn) as [->|(c & x & ->)]; [by apply Hno in Hn |].
    erewrite step_Fulfil_delete by done. cbn. repeat split; try done.
    intros m k [_ Hm]%lookup_delete_Some. by apply Hno in Hm.
  - destruct (pending w !! n) as [k|] eqn:Hn; [| done]. injection Ha as <-.
    split; [by apply stable_step |]. rewrite step_Reject by done. cbn.
    repeat split; try done.
    intros m k' [_ Hm]%lookup_delete_Some. by apply Hno in Hm.
Qed.

Lemma acts_locked (l : list Action) (w w' : World) :
  stable w → loadingCards (state w) = true →
  (∀ n k, pending w !! n ≠ Some (AwaitingGet k)) →
  acts l w = Some w' →
  stable w' ∧ loadingCards (state w') = true ∧
  (∀ n k, pending w' !! n ≠ Some (AwaitingGet k)) ∧
  issued w' = issued w ∧ currentPage (state w') = currentPage (state w).
Proof.
  revert w. induction l as [|a l IH]; intros w Hw Hb Hno Hl; cbn in Hl.
  - by injection Hl as <-.
  - destruct (act a w) as [w1|] eqn:Ha; [| done].
    destruct (act_locked a w w1 Hw Hb Hno Ha) as (Hw1 & Hb1 & Hno1 & Hi & Hp).
    destruct (IH w1 Hw1 Hb1 Hno1 Hl) as (? & ? & ? & Hi' & Hp').
    do 3 (split; [done |]). split; congruence.
Qed.

(** X13: once the busy flag is up and no fetch is waiting for a response
    (the fetch that raised it has failed), nothing that can be done
    through the render brings the table back: rows and pagination are
    off screen, closing the modal and the answers to pending deletes
    leave the flag up, and no request is sent any more. *)
Theorem no_way_back_after_failed_fetch
    (es0 : list Event) (l : list Action) (w' : World) :
  loadingCards (state (steps es0 mount)) = true →
  getInFlight (steps es0 mount) = false →
  acts l (steps es0 mount) = Some w' →
  tableShown (state w') = false ∧
  loadingCards (state w') = true ∧
  getInFlight w' = false ∧
  issued w' = issued (steps es0 mount) ∧
  currentPage (state w') = currentPage (state (steps es0 mount)).
Proof.
  intros Hb Hfl Hl. pose proof (stable_history es0) as Hw.
  assert (Hno : ∀ n k, pending (steps es0 mount) !! n ≠ Some (AwaitingGet k)).
  { intros n k Hn.
    assert (getInFlight (steps es0 mount) = true) as Hin; [| congruence].
    apply getInFlight_spec; [apply Hw | eauto]. }
  destruct (acts_locked l _ w' Hw Hb Hno Hl) as (Hw' & Hb' & Hno' & Hi & Hp).
  split; [unfold tableShown; by rewrite tableRegion_busy |].
  split; [done |]. split; [| done].
  destruct (getInFlight w') eqn:Hfl'; [| done].
  apply getInFlight_spec in Hfl' as (n & k & Hn); [| apply Hw'].
  by apply Hno' in Hn.
Qed.

(** X14: a delete that is answered after a page change and its fetch
    puts the rows of the page it was clicked on back: the list becomes
    the list held at the click without the deleted id, while the cursor,
    the balance and the total count are those of the new page. *)
Theorem late_delete_overwrites_new_page
    (es0 : list Event) (x : jsstring) (q : Z) (r r' : Response) :
  q ≠ currentPage (state (steps es0 mount)) →
  let w0 := steps es0 mount in
  let n := length (issued w0) in
  let w2 := step (ChangePage q) (step (ClickDelete x) w0) in
  let w3 := step (Fulfil (S n) r) w2 in
  let w4 := step (Fulfil n r') w3 in
  transactions (state w3) = data_transactions (data r) ∧
  transactions (state w4)
    = filter (λ t, id t ≠ x) (transactions (state w0)) ∧
  currentPage (state w4) = q ∧
  balance (state w4) = data_balance (data r) ∧
  totalTransactions (state w4) = data_totalTransactions (data r) ∧
  loadingCards (state w4) = false.
Proof.
  intros Hq w0 n w2 w3 w4.
  destruct (stable_history es0) as (Hc & Hf & Hk). fold w0 in Hc, Hf, Hk, Hq.
  assert (E2 : w2 = _)
    by (unfold w2; rewrite (step_ClickDelete w0) by done;
        by apply step_ChangePage_new).
  assert (E3 : w3 = withState (loaded r) (settle (S n) w2))
    by (apply step_Fulfil_get; [apply step_is_committed |];
        rewrite E2; cbn; rewrite length_app; cbn;
        replace (length (issued w0) + 1)%nat with (S n) by (unfold n; lia);
        apply lookup_insert_eq).
  assert (E4 : w4 = _)
    by (unfold w4; eapply step_Fulfil_delete; [apply step_is_committed |];
        rewrite E3, E2; cbn; rewrite length_app; cbn;
        rewrite lookup_delete_ne by lia;
        rewrite lookup_insert_ne by lia;
        apply lookup_insert_eq).
  clearbody w2 w3 w4. subst w4 w3 w2. done.
Qed.

End Dashboard.

(** ** Worked instances

    The instances below run the page with [unit] for the date type, a
    [Number] conversion into [unit] and constant formatters. *)

Example displayTitle_scenario :
  displayTitle (lit "Monthly Subscription Payment") = lit "Monthly Subscri..." ∧
  displayTitle (lit "Salary") = lit "Salary" ∧
  displayTitle (lit "fifteen chars..") = lit "fifteen chars..".
Proof. by vm_compute. Qed.

Example mount_fetches_first_page :
  issued (mount (Date := unit)) = [GET (lit "/transactions?page=1&limit=5")] ∧
  loadingCards (state (mount (Date := unit))) = true.
Proof. by vm_compute. Qed.

(** A cursor far past the last page, or below the first, goes into the
    request as it is. *)
Example change_page_out_of_range :
  let w0 := steps [Fulfil 0 (sampleResponse [] 0)] (mount (Date := unit)) in
  totalTransactions (state w0) = 0 ∧
  issued (step (ChangePage 999) w0)
    = issued w0 ++ [GET (lit "/transactions?page=999&limit=5")] ∧
  issued (step (ChangePage (-3)) w0)
    = issued w0 ++ [GET (lit "/transactions?page=-3&limit=5")] ∧
  issued (step (ChangePage 1) w0) = issued w0.
Proof. by vm_compute. Qed.

(** On the first render every balance field is absent; with a formatter
    that prints the sentinel for them, the three cards show the
    placeholder although the busy flag is still down. *)
Example cards_before_first_fetch :
  let fmt := λ _ : unit, nanSentinel in
  loadingCards (initialState (Date := unit)) = false ∧
  showsPlaceholder (incomeCard (λ _, ()) fmt (initialState (Date := unit))) = true ∧
  showsPlaceholder (totalCard (λ _, ()) fmt (initialState (Date := unit))) = true.
Proof. by vm_compute. Qed.

Lemma transactionsList_titles_witness :
  let tx := sampleTransaction () "7" "Monthly Subscription Payment" in
  let shown := transactionsList (λ _, ()) (λ _ : unit, lit "R$ 1.500,50")
                 (λ _ : unit, lit "01/02/2020") [tx] in
  [tx] !! 0%nat = Some tx ∧
  ∃ d, shown !! 0%nat = Some d ∧
       title d = lit "Monthly Subscri..." ∧ length (title d) = 18%nat.
Proof.
  intros tx shown. split; [reflexivity |].
  destruct (transactionsList_titles (λ _, ()) (λ _ : unit, lit "R$ 1.500,50")
              (λ _ : unit, lit "01/02/2020") [tx] 0 tx eq_refl)
    as [_ (d & Hd & Ht)].
  exists d. split; [exact Hd |]. vm_compute in Ht. exact Ht.
Defined.

Lemma reload_replaces_wholesale_witness :
  let tx := sampleTransaction () "7" "Rent" in
  let r0 := sampleResponse [] 0 in
  let r := sampleResponse [tx] 11 in
  let es0 := [Fulfil 0 r0; ChangePage 3; Fulfil 1 r0] in
  let es := [ClickEdit tx; CloseModal] in
  let w1 := reload (steps es0 mount) in
  let w3 := step (Fulfil 2 r) (steps es w1) in
  safeInteger (currentPage (state (steps es0 mount))) ∧
  forallb (λ e, negb (settles (length (issued (steps es0 mount))) e)) es
    = true ∧
  issued w1 = [GET (lit "/transactions?page=1&limit=5");
               GET (lit "/transactions?page=3&limit=5");
               GET (lit "/transactions?page=3&limit=5")] ∧
  transactions (state w3) = [tx] ∧
  totalTransactions (state w3) = 11 ∧
  loadingCards (state w3) = false.
Proof.
  intros tx r0 r es0 es w1 w3.
  assert (Hp : safeInteger (currentPage (state (steps es0 mount))))
    by (split; vm_compute; discriminate).
  assert (Hes : forallb
            (λ e, negb (settles (length (issued (steps es0 mount))) e))
            es = true) by (vm_compute; reflexivity).
  split; [exact Hp |]. split; [exact Hes |].
  destruct (reload_replaces_wholesale es0 es r Hp Hes)
    as (_ & Hi & Ht & _ & Hn & Hb).
  split; [exact (eq_trans Hi eq_refl) |].
  split; [exact Ht |]. split; [exact Hn | exact Hb].
Defined.

Lemma reload_failure_keeps_busy_witness :
  let es := [Reject 0; ChangePage 3; Reject 2; ClickDelete (lit "7")] in
  let w2 := step (Reject 1) (reload (steps [] (mount (Date := unit)))) in
  noGetFulfilled es w2 = true ∧
  transactions (state w2) = [] ∧
  loadingCards (state w2) = true ∧
  loadingCards (state (steps es w2)) = true.
Proof.
  intros es w2.
  assert (Hes : noGetFulfilled es w2 = true) by (vm_compute; reflexivity).
  split; [exact Hes |].
  destruct (reload_failure_keeps_busy [] es Hes)
    as (Hb & Hs & Ht & _ & _ & _ & _ & Hl).
  split; [exact Ht |]. split; [| exact Hl].
  exact (eq_trans (f_equal loadingCards Hs) Hb).
Defined.

Lemma overlapping_reloads_last_wins_witness :
  let tx2 := sampleTransaction () "2" "Page two" in
  let tx3 := sampleTransaction () "3" "Page three" in
  let es0 := [Fulfil 0 (sampleResponse [] 11)] in
  let r2 := sampleResponse [tx2] 11 in
  let r3 := sampleResponse [tx3] 11 in
  let w2 := step (ChangePage 3) (step (ChangePage 2) (steps es0 mount)) in
  let b := step (Fulfil 1 r2) (step (Fulfil 2 r3) w2) in
  safeInteger 2 ∧ safeInteger 3 ∧
  2 ≠ currentPage (state (steps es0 mount)) ∧ 3 ≠ 2 ∧
  issued w2 = [GET (lit "/transactions?page=1&limit=5");
               GET (lit "/transactions?page=2&limit=5");
               GET (lit "/transactions?page=3&limit=5")] ∧
  currentPage (state b) = 3 ∧ transactions (state b) = [tx2].
Proof.
  intros tx2 tx3 es0 r2 r3 w2 b.
  assert (S2 : safeInteger 2) by (split; vm_compute; discriminate).
  assert (S3 : safeInteger 3) by (split; vm_compute; discriminate).
  assert (H1 : 2 ≠ currentPage (state (steps es0 mount))) by (vm_compute; discriminate).
  assert (H2 : 3 ≠ 2) by discriminate.
  split; [exact S2 |]. split; [exact S3 |].
  split; [exact H1 |]. split; [exact H2 |].
  destruct (overlapping_reloads_last_wins es0 2 3 r2 r3 S2 S3 H1 H2)
    as (Hi & _ & _ & _ & Hp & _ & _ & _ & Ht & _).
  split; [exact (eq_trans Hi eq_refl) |].
  split; [exact Hp | exact Ht].
Defined.

Lemma change_page_fetches_once_witness :
  let w0 := steps [Fulfil 0 (sampleResponse [] 0)] (mount (Date := unit)) in
  let w1 := step (ChangePage 999) w0 in
  safeInteger 999 ∧
  totalTransactions (state w0) = 0 ∧
  currentPage (state w1) = 999 ∧
  issued w1 = [GET (lit "/transactions?page=1&limit=5");
               GET (lit "/transactions?page=999&limit=5")] ∧
  issued (step (Fulfil 1 (sampleResponse [] 0)) w1) = issued w1.
Proof.
  intros w0 w1.
  assert (Hq : safeInteger 999) by (split; vm_compute; discriminate).
  split; [exact Hq |]. split; [reflexivity |].
  destruct (change_page_fetches_once (Date := unit)
              [Fulfil 0 (sampleResponse [] 0)] 999
              (sampleResponse [] 0) Hq) as (Hp & _ & Hi & Hi2 & _).
  split; [exact Hp |]. split; [exact (eq_trans Hi eq_refl) | exact Hi2].
Defined.

Lemma delete_removes_and_notifies_once_witness :
  let tx1 := sampleTransaction () "1" "Rent" in
  let tx2 := sampleTransaction () "2" "Monthly Subscription Payment" in
  let es0 := [Fulfil 0 (sampleResponse [tx1; tx2] 2)] in
  let es := [ClickEdit tx2; CloseModal] in
  let w2 := steps es (step (ClickDelete (lit "1")) (steps es0 mount)) in
  let w3 := step (Fulfil 1 (sampleResponse [] 0)) w2 in
  forallb (λ e, negb (settles (length (issued (steps es0 mount))) e)) es = true ∧
  transactions (state w3) = [tx2] ∧
  toasts w3 = toasts w2 ++ [deleteSuccessMessage].
Proof.
  intros tx1 tx2 es0 es w2 w3.
  assert (Hes : forallb (λ e, negb (settles (length (issued (steps es0 mount))) e))
                  es = true) by (vm_compute; reflexivity).
  split; [exact Hes |].
  destruct (delete_removes_and_notifies_once es0 es (lit "1")
              (sampleResponse [] 0) Hes) as (Ht & _ & _ & Hn & _).
  split; [| exact Hn].
  exact (eq_trans Ht eq_refl).
Defined.

Lemma delete_touches_only_the_list_witness :
  let tx1 := sampleTransaction () "1" "Rent" in
  let tx2 := sampleTransaction () "2" "Salary" in
  let es0 := [Fulfil 0 (sampleResponse [tx1; tx2] 2)] in
  let es := [ClickEdit tx2] in
  let w2 := steps es (step (ClickDelete (lit "1")) (steps es0 mount)) in
  let w3 := step (Fulfil 1 (sampleResponse [] 0)) w2 in
  forallb (λ e, negb (settles (length (issued (steps es0 mount))) e)) es = true ∧
  totalTransactions (state w3) = totalTransactions (state w2) ∧
  balance (state w3) = balance (state w2) ∧
  issued w3 = issued w2.
Proof.
  intros tx1 tx2 es0 es w2 w3.
  assert (Hes : forallb (λ e, negb (settles (length (issued (steps es0 mount))) e))
                  es = true) by (vm_compute; reflexivity).
  split; [exact Hes |].
  destruct (delete_touches_only_the_list es0 es (lit "1")
              (sampleResponse [] 0) Hes) as (_ & _ & Hb & Ht & _ & _ & _ & _ & Hi).
  split; [exact Ht |]. split; [exact Hb | exact Hi].
Defined.

Lemma delete_failure_changes_nothing_witness :
  let tx1 := sampleTransaction () "1" "Rent" in
  let es0 := [Fulfil 0 (sampleResponse [tx1] 1)] in
  let es := [CloseModal] in
  let w2 := steps es (step (ClickDelete (lit "1")) (steps es0 mount)) in
  let w3 := step (Reject 1) w2 in
  forallb (λ e, negb (settles (length (issued (steps es0 mount))) e)) es = true ∧
  transactions (state w3) = transactions (state w2) ∧
  toasts w3 = toasts w2.
Proof.
  intros tx1 es0 es w2 w3.
  assert (Hes : forallb (λ e, negb (settles (length (issued (steps es0 mount))) e))
                  es = true) by (vm_compute; reflexivity).
  split; [exact Hes |].
  destruct (delete_failure_changes_nothing es0 es (lit "1") Hes)
    as (_ & _ & _ & _ & Ht & Hn & _).
  split; [exact Ht | exact Hn].
Defined.

(** ** Worked instances of the further properties *)

Example displayTitle_grows_short_overflow :
  displayTitle (lit "sixteen chars...") = lit "sixteen chars.....".
Proof. by vm_compute. Qed.

Example requestsOf_sample :
  requestsOf (Date := unit)
    [ChangePage 1; ChangePage 2; CloseModal; ClickDelete (lit "7");
     ChangePage 2; Reject 0] 1
  = [GET (lit "/transactions?page=2&limit=5"); DELETE (lit "transactions/7")].
Proof. by vm_compute. Qed.

Lemma requests_follow_user_events_witness :
  let es := [ChangePage 1; Fulfil 0 (sampleResponse [] 12); ChangePage 2;
             CloseModal; ClickDelete (lit "7"); ChangePage 2; Reject 1;
             ChangePage (-3)] in
  safePages (Date := unit) es ∧
  issued (steps es mount)
  = [GET (lit "/transactions?page=1&limit=5");
     GET (lit "/transactions?page=2&limit=5");
     DELETE (lit "transactions/7");
     GET (lit "/transactions?page=-3&limit=5")].
Proof.
  intros es.
  assert (Hs : safePages es)
    by (repeat (constructor; [first [exact I | split; vm_compute; discriminate] |]);
        constructor).
  split; [exact Hs |].
  exact (eq_trans (requests_follow_user_events es Hs) eq_refl).
Defined.

Lemma busy_only_while_fetching_witness :
  let tx := sampleTransaction () "1" "Rent" in
  let es := [Fulfil 0 (sampleResponse [tx] 1); ChangePage 2;
             ClickDelete (lit "1"); Fulfil 1 (sampleResponse [] 1); Reject 2] in
  noGetRejected es mount = true ∧
  getInFlight (steps es mount) = false ∧
  loadingCards (state (steps es mount)) = false.
Proof.
  intros tx es.
  assert (H1 : noGetRejected es mount = true) by (vm_compute; reflexivity).
  assert (H2 : getInFlight (steps es mount) = false) by (vm_compute; reflexivity).
  split; [exact H1 |]. split; [exact H2 |].
  exact (proj1 (busy_only_while_fetching (λ _, ()) (λ _ : unit, lit "R$ 0,00")
                  (λ _ : unit, lit "01/02/2020") es H1 H2)).
Defined.

Lemma delete_of_absent_id_witness :
  let tx := sampleTransaction () "1" "Rent" in
  let es0 := [Fulfil 0 (sampleResponse [tx] 1)] in
  let w2 := step (Fulfil 1 (sampleResponse [] 0))
              (step (ClickDelete (lit "9")) (steps es0 mount)) in
  Forall (λ t, id t ≠ lit "9") (transactions (state (steps es0 mount))) ∧
  transactions (state w2) = [tx] ∧
  toasts w2 = [deleteSuccessMessage].
Proof.
  intros tx es0 w2.
  assert (H : Forall (λ t, id t ≠ lit "9") (transactions (state (steps es0 mount))))
    by (apply (bool_decide_unpack _); vm_compute; exact I).
  split; [exact H |].
  destruct (delete_of_absent_id es0 (lit "9") (sampleResponse [] 0) H)
    as (_ & Ht & Hn).
  split; [exact Ht | exact Hn].
Defined.

Lemma second_delete_restores_first_witness :
  let tx1 := sampleTransaction () "1" "Rent" in
  let tx2 := sampleTransaction () "2" "Salary" in
  let es0 := [Fulfil 0 (sampleResponse [tx1; tx2] 2)] in
  let r := sampleResponse [] 0 in
  let w4 := step (Fulfil 2 r) (step (Fulfil 1 r)
              (step (ClickDelete (lit "2"))
                 (step (ClickDelete (lit "1")) (steps es0 mount)))) in
  lit "1" ≠ lit "2" ∧
  tx1 ∈ transactions (state (steps es0 mount)) ∧
  id tx1 = lit "1" ∧
  transactions (state w4) = [tx1] ∧
  length (toasts w4) = 2%nat.
Proof.
  intros tx1 tx2 es0 r w4.
  assert (H1 : lit "1" ≠ lit "2") by (vm_compute; discriminate).
  assert (H2 : tx1 ∈ transactions (state (steps es0 mount)))
    by (change (tx1 ∈ [tx1; tx2]); apply list_elem_of_here).
  split; [exact H1 |]. split; [exact H2 |]. split; [reflexivity |].
  destruct (second_delete_restores_first es0 (lit "1") (lit "2") r r tx1
              H1 H2 eq_refl) as (_ & Ht & _ & Hn).
  split; [exact (eq_trans Ht eq_refl) |].
  exact (eq_trans (f_equal length Hn) eq_refl).
Defined.

Lemma table_after_load_witness :
  let six := (λ i, sampleTransaction () i "Rent")
               <$> ["1"; "2"; "3"; "4"; "5"; "6"] in
  let r := sampleResponse six 6 in
  let fmt := λ _ : unit, lit "R$ 1.500,50" in
  let w3 := step (Fulfil 1 r) (steps [Fulfil 0 r] (reload (steps [] mount))) in
  forallb (λ e, negb (settles (length (issued (steps [] (mount (Date := unit))))) e))
    [Fulfil 0 r] = true ∧
  ∃ rows pagination,
    tableRegion (λ _, ()) fmt fmt (state w3) = Table rows pagination ∧
    length rows = 6%nat ∧ itemsCountPerPage pagination = 5.
Proof.
  intros six r fmt w3.
  assert (Hes : forallb (λ e, negb (settles (length (issued (steps [] (mount (Date := unit))))) e))
                  [Fulfil 0 r] = true) by (vm_compute; reflexivity).
  split; [exact Hes |].
  destruct (table_after_load (λ _, ()) fmt fmt [] [Fulfil 0 r] r Hes)
    as (rows & pagination & Ht & _ & Hl & _ & Hp & _).
  exists rows, pagination. split; [exact Ht |]. split; [exact Hl | exact Hp].
Defined.

Lemma row_cells_witness :
  let tx := sampleTransaction () "7" "Monthly Subscription Payment" in
  let s := set_transactions [tx] initialState in
  let fmt := λ _ : unit, lit "R$ 1.500,50" in
  let day := λ _ : unit, lit "01/02/2020" in
  loadingCards s = false ∧ transactions s !! 0%nat = Some tx ∧
  ∃ rows pagination row,
    tableRegion (λ _, ()) fmt day s = Table rows pagination ∧
    rows !! 0%nat = Some row ∧
    titleCell row = lit "Monthly Subscri..." ∧
    valueCell row = lit "- R$ 1.500,50" ∧
    valueClass row = lit "outcome".
Proof.
  intros tx s fmt day. split; [reflexivity |]. split; [reflexivity |].
  destruct (row_cells (λ _, ()) fmt day s 0 tx eq_refl eq_refl)
    as (rows & pagination & row & Ht & Hr & _ & Htitle & Hv & Hc & _).
  exists rows, pagination, row. split; [exact Ht |]. split; [exact Hr |].
  split; [exact (eq_trans Htitle eq_refl) |].
  split; [exact (eq_trans Hv eq_refl) | exact Hc].
Defined.

Lemma edit_receives_decorated_witness :
  let tx := sampleTransaction () "7" "Monthly Subscription Payment" in
  let es0 := [Fulfil 0 (sampleResponse [tx] 1)] in
  let fmt := λ _ : unit, lit "R$ 1.500,50" in
  let day := λ _ : unit, lit "01/02/2020" in
  loadingCards (state (steps es0 mount)) = false ∧
  transactions (state (steps es0 mount)) !! 0%nat = Some tx ∧
  ∃ w1, act (λ _, ()) fmt day (RowEdit 0) (steps es0 mount) = Some w1 ∧
    title <$> editingTransaction (state w1) = Some (lit "Monthly Subscri...") ∧
    transactions (state w1) = [tx].
Proof.
  intros tx es0 fmt day.
  assert (H1 : loadingCards (state (steps es0 mount)) = false) by reflexivity.
  assert (H2 : transactions (state (steps es0 mount)) !! 0%nat = Some tx)
    by reflexivity.
  split; [exact H1 |]. split; [exact H2 |].
  destruct (edit_receives_decorated (λ _, ()) fmt day es0 0 tx H1 H2)
    as (w1 & Ha & _ & Ht & _ & Hl & _).
  exists w1. split; [exact Ha |].
  split; [exact (eq_trans Ht eq_refl) | exact (eq_trans Hl eq_refl)].
Defined.

Lemma no_way_back_after_failed_fetch_witness :
  let tx := sampleTransaction () "1" "Rent" in
  let es0 := [Fulfil 0 (sampleResponse [tx] 1); ClickDelete (lit "1");
              ChangePage 2; Reject 2] in
  let fmt := λ _ : unit, lit "R$ 1.500,50" in
  let l := [Settled 1 (sampleResponse [] 0); ModalClose] in
  let w' := step CloseModal
              (step (Fulfil 1 (sampleResponse [] 0)) (steps es0 mount)) in
  loadingCards (state (steps es0 mount)) = true ∧
  getInFlight (steps es0 mount) = false ∧
  acts (λ _, ()) fmt fmt l (steps es0 mount) = Some w' ∧
  act (λ _, ()) fmt fmt (Paginate 1) w' = None ∧
  tableShown (λ _, ()) fmt fmt (state w') = false.
Proof.
  intros tx es0 fmt l w'.
  assert (H1 : loadingCards (state (steps es0 mount)) = true)
    by (vm_compute; reflexivity).
  assert (H2 : getInFlight (steps es0 mount) = false)
    by (vm_compute; reflexivity).
  assert (H3 : acts (λ _, ()) fmt fmt l (steps es0 mount) = Some w')
    by (vm_compute; reflexivity).
  split; [exact H1 |]. split; [exact H2 |]. split; [exact H3 |].
  split; [vm_compute; reflexivity |].
  exact (proj1 (no_way_back_after_failed_fetch (λ _, ()) fmt fmt es0 l w'
                  H1 H2 H3)).
Defined.

Lemma late_delete_overwrites_new_page_witness :
  let tx1 := sampleTransaction () "1" "Rent" in
  let tx2 := sampleTransaction () "2" "Salary" in
  let tx6 := sampleTransaction () "6" "Second page" in
  let es0 := [Fulfil 0 (sampleResponse [tx1; tx2] 6)] in
  let w4 := step (Fulfil 1 (sampleResponse [] 0))
              (step (Fulfil 2 (sampleResponse [tx6] 6))
                 (step (ChangePage 2)
                    (step (ClickDelete (lit "1")) (steps es0 mount)))) in
  2 ≠ currentPage (state (steps es0 mount)) ∧
  currentPage (state w4) = 2 ∧
  transactions (state w4) = [tx2].
Proof.
  intros tx1 tx2 tx6 es0 w4.
  assert (H : 2 ≠ currentPage (state (steps es0 mount)))
    by (vm_compute; discriminate).
  split; [exact H |].
  destruct (late_delete_overwrites_new_page es0 (lit "1") 2
              (sampleResponse [tx6] 6) (sampleResponse [] 0) H)
    as (_ & Ht & Hp & _).
  split; [exact Hp | exact (eq_trans Ht eq_refl)].
Defined.
